(** * usbdfu: the control-transfer side of the USB DFU class driver

    A shallow embedding of [usbdfu.c]: the slot counter [dfu_index], the
    device-record lifecycle ([dfu_prepare], [dfu_cleanup]), the transfer
    engine ([dfu_submit_urb], [dfu_urb_timeout], [dfu_ctrlurb_done]) and the
    five protocol operations, followed by the properties of the driver's
    specification that were checked against them. *)

From Stdlib Require Import ZArith List Bool Lia.
From stdpp Require Import gmap.
Open Scope Z_scope.

(** ** Machine integers *)

Definition INT_MIN : Z := -2147483648.
Definition INT_MAX : Z := 2147483647.

(** A C [int] holds the values of [INT_MIN .. INT_MAX]. *)
Definition is_int (x : Z) : Prop := INT_MIN <= x <= INT_MAX.

(** The kernel's [atomic_t] arithmetic wraps around in two's complement. *)
Definition wrap_int (x : Z) : Z := (x + 2147483648) mod 4294967296 - 2147483648.

(** Conversion to [__u8], as on a store into a byte field. *)
Definition u8 (x : Z) : Z := x mod 256.

(** A [__le16] field: the two bytes as they lie in memory, low byte first. *)
Record le16 := { lo_byte : Z; hi_byte : Z }.

Definition cpu_to_le16 (x : Z) : le16 :=
  {| lo_byte := x mod 256; hi_byte := (x / 256) mod 256 |}.

Definition le16_to_cpu (v : le16) : Z := lo_byte v + 256 * hi_byte v.

(** [errno] values of the kernel. *)
Definition ENOMEM : Z := 12.
Definition ENODEV : Z := 19.

(** [linux/kdev_t.h]: a [dev_t] is a major number above 20 bits of minor. *)
Definition MINORBITS : Z := 20.
Definition MAJOR (dev : Z) : Z := Z.shiftr dev MINORBITS.
Definition MKDEV (ma mi : Z) : Z := Z.lor (Z.shiftl ma MINORBITS) mi.

(** ** The constants of [usbdfu.h] *)

(** Modelled from the spec: the header [usbdfu.h] is not among the sources, so
    the constants it defines are an interface the embedding is parametrised
    by.  The spec names the request codes (DETACH, ABORT, GETSTATUS, GETSTATE,
    CLRSTATUS), the fixed descriptor length and tag, and the "not yet
    completed" sentinel of [result_status]. *)
Class usbdfu_h := {
  USB_DFU_FUNC_DSCLEN : Z;
  USB_DFU_FUNC_DSCTYP : Z;
  USB_DFU_DETACH : Z;
  USB_DFU_GETSTATUS : Z;
  USB_DFU_CLRSTATUS : Z;
  USB_DFU_GETSTATE : Z;
  USB_DFU_ABORT : Z;
  USB_DFU_ERROR_CODE : Z
}.

(** Modelled from the spec: descriptor length 9 and tag 0x21 are those of the
    spec's end-to-end example; the request codes are the numbers the DFU class
    assigns to the names the spec uses.  The spec gives no number for the
    sentinel: 0xffff stands for it where a property is evaluated on concrete
    input, and no theorem below depends on that choice. *)
Definition dfu_class_header : usbdfu_h := {|
  USB_DFU_FUNC_DSCLEN := 9;
  USB_DFU_FUNC_DSCTYP := 0x21;
  USB_DFU_DETACH := 0;
  USB_DFU_GETSTATUS := 3;
  USB_DFU_CLRSTATUS := 4;
  USB_DFU_GETSTATE := 5;
  USB_DFU_ABORT := 6;
  USB_DFU_ERROR_CODE := 0xffff
|}.

(** ** Module parameters *)

Record module_params := {
  max_dfus : Z;
  urb_timeout : Z;      (* milliseconds *)
  detach_timeout : Z    (* milliseconds *)
}.

Definition default_params : module_params :=
  {| max_dfus := 8; urb_timeout := 200; detach_timeout := 2000 |}.

(** ** What the USB core hands to the driver *)

(** [struct usb_device], as far as the driver looks into it. *)
Record usb_device := {
  usb_devnum : Z;
  dma_mask : bool       (* bus->controller->dma_mask is not NULL *)
}.

(** Modelled from the spec: [struct dfufdsc] of [usbdfu.h], the class-specific
    functional descriptor [cur_altsetting->extra] points to: a tag, the
    capability bitmap, and the little-endian 16-bit detach timeout and
    transfer size. *)
Record dfufdsc := {
  dsctyp : Z;
  fd_attr : Z;
  tmout : le16;
  fd_xfersize : le16
}.

(** [struct usb_interface]: [intf_ptr] is the address of the interface, which
    is what tells two interfaces apart. *)
Record usb_interface := {
  intf_ptr : positive;
  extra : option dfufdsc;        (* cur_altsetting->extra, None for NULL *)
  extralen : Z;                  (* cur_altsetting->extralen *)
  bInterfaceNumber : Z;          (* cur_altsetting->desc.bInterfaceNumber *)
  interface_to_usbdev : usb_device
}.

(** ** The device record *)

(** Modelled from the spec: [struct dfu_device] of [usbdfu.h], with the fields
    [dfu_prepare] fills in.  The lock [dfulock], which [dfu_prepare] only
    initialises, and the sysfs attribute of [dfu_probe] are left out. *)
Record dfu_device := {
  index : Z;
  attr : Z;
  dettmout : Z;
  xfersize : Z;
  intf : positive;
  usbdev : usb_device;
  intfnum : Z;
  devnum : Z;
  dma : Z
}.

(** ** Diagnostics *)

(** One constructor per format string, with the arguments printed. *)
Inductive message :=
| Invalid_DFU_functional_descriptor
| Maximum_supported_USB_DFU_reached (max : Z)
| Cannot_allocate_URB
| URB_cancelled (bRequestType bRequest : Z)
| URB_submit_failed (bRequestType bRequest retusb : Z)
| URB_request_failed (bRequestType bRequest status : Z)
| Need_reset_to_switch_to_DFU.

(** ** Driver-wide state *)

(** The slot counter, the char device region of [usbdfu_init], the device
    records obtained from [kmalloc] and not yet given to [kfree], the
    driver-private pointer of each interface, and the kernel log. *)
Record driver := {
  dfu_index : Z;                        (* atomic_t, ATOMIC_INIT(-1) *)
  dfu_devnum : Z;
  kheap : gmap positive dfu_device;
  intfdata : gmap positive positive;
  klog : list message
}.

Definition driver_init (devnum0 : Z) : driver :=
  {| dfu_index := -1; dfu_devnum := devnum0;
     kheap := ∅; intfdata := ∅; klog := [] |}.

Definition set_dfu_index (v : Z) (s : driver) : driver :=
  {| dfu_index := v; dfu_devnum := dfu_devnum s;
     kheap := kheap s; intfdata := intfdata s; klog := klog s |}.

Definition atomic_inc_return (s : driver) : Z * driver :=
  let v := wrap_int (dfu_index s + 1) in (v, set_dfu_index v s).

Definition atomic_dec (s : driver) : driver :=
  set_dfu_index (wrap_int (dfu_index s - 1)) s.

Definition dev_err (m : message) (s : driver) : driver :=
  {| dfu_index := dfu_index s; dfu_devnum := dfu_devnum s;
     kheap := kheap s; intfdata := intfdata s; klog := klog s ++ [m] |}.

(** [kmalloc] either fails or returns an address not in use. *)
Definition kmalloc (ok : bool) (s : driver) : option positive :=
  if ok then Some (fresh (dom (kheap s))) else None.

(** The stores through a device-record pointer, taken together. *)
Definition store_dev (p : positive) (d : dfu_device) (s : driver) : driver :=
  {| dfu_index := dfu_index s; dfu_devnum := dfu_devnum s;
     kheap := <[p := d]> (kheap s); intfdata := intfdata s; klog := klog s |}.

Definition kfree (p : positive) (s : driver) : driver :=
  {| dfu_index := dfu_index s; dfu_devnum := dfu_devnum s;
     kheap := delete p (kheap s); intfdata := intfdata s; klog := klog s |}.

Definition usb_set_intfdata (i : usb_interface) (data : option positive)
    (s : driver) : driver :=
  {| dfu_index := dfu_index s; dfu_devnum := dfu_devnum s;
     kheap := kheap s;
     intfdata := match data with
                 | Some p => <[intf_ptr i := p]> (intfdata s)
                 | None => delete (intf_ptr i) (intfdata s)
                 end;
     klog := klog s |}.

Definition usb_get_intfdata (i : usb_interface) (s : driver) : option positive :=
  intfdata s !! intf_ptr i.

(** The number of slots in use: the counter starts at -1 with none in use. *)
Definition slot_count (s : driver) : Z := dfu_index s + 1.

Section Lifecycle.

Context {H : usbdfu_h}.
Variable P : module_params.

(** ** Device record construction *)

(** [dfudevp] is the caller's pointer variable [*dfudevp] before the call; the
    result is the return value, [*dfudevp] after the call and the new state.
    [kmalloc_ok] says whether the allocator can serve the request. *)
Definition dfu_prepare (kmalloc_ok : bool) (dfudevp : option positive)
    (i : usb_interface) (s : driver) : Z * option positive * driver :=
  let retv := 0 in
  let dfufdsc_len := extralen i in
  match extra i with
  | None =>
      (- ENODEV, dfudevp, dev_err Invalid_DFU_functional_descriptor s)
  | Some fd =>
      if negb (dfufdsc_len =? USB_DFU_FUNC_DSCLEN)
         || negb (dsctyp fd =? USB_DFU_FUNC_DSCTYP)
      then (- ENODEV, dfudevp, dev_err Invalid_DFU_functional_descriptor s)
      else
        let '(idx, s1) := atomic_inc_return s in
        if idx >=? max_dfus P then
          (* err_10 *)
          (- ENODEV, dfudevp,
           atomic_dec (dev_err (Maximum_supported_USB_DFU_reached (max_dfus P)) s1))
        else
          match kmalloc kmalloc_ok s1 with
          | None =>
              (* err_10 *)
              (- ENOMEM, None, atomic_dec s1)
          | Some p =>
              let dfudev :=
                {| index := idx;
                   attr := fd_attr fd;
                   dettmout := le16_to_cpu (tmout fd);
                   xfersize := le16_to_cpu (fd_xfersize fd);
                   intf := intf_ptr i;
                   usbdev := interface_to_usbdev i;
                   intfnum := bInterfaceNumber i;
                   devnum := MKDEV (MAJOR (dfu_devnum s1)) idx;
                   dma := if dma_mask (interface_to_usbdev i) then 1 else 0 |} in
              (retv, Some p, usb_set_intfdata i (Some p) (store_dev p dfudev s1))
          end
  end.

(** ** Device record teardown *)

Definition dfu_cleanup (i : usb_interface) (dfudev : positive) (s : driver)
    : driver :=
  atomic_dec (kfree dfudev (usb_set_intfdata i None s)).

(** ** Attach and detach events *)

(** The driver framework attaches an interface through [dfu_probe], which
    calls [dfu_prepare], and detaches it through [dfu_disconnect], which looks
    the record up with [usb_get_intfdata] and calls [dfu_cleanup]; a detach
    comes only for an interface whose attach succeeded. *)
Inductive lifecycle_event :=
| attach (kmalloc_ok : bool) (i : usb_interface)
| detach (i : usb_interface).

Definition lifecycle_step (e : lifecycle_event) (s : driver) : driver :=
  match e with
  | attach ok i => snd (dfu_prepare ok None i s)
  | detach i =>
      match usb_get_intfdata i s with
      | Some p => dfu_cleanup i p s
      | None => s
      end
  end.

Definition lifecycle_run (es : list lifecycle_event) (s : driver) : driver :=
  fold_left (fun s e => lifecycle_step e s) es s.

(** The return values of a run of [dfu_prepare] calls, and the state after. *)
Fixpoint prepare_all (calls : list (bool * usb_interface)) (s : driver)
    : list Z * driver :=
  match calls with
  | [] => ([], s)
  | (ok, i) :: rest =>
      let '(retv, _, s1) := dfu_prepare ok None i s in
      let '(rets, s2) := prepare_all rest s1 in
      (retv :: rets, s2)
  end.

(** How many calls of a run returned 0. *)
Fixpoint successes (rets : list Z) : Z :=
  match rets with
  | [] => 0
  | r :: rest => (if r =? 0 then 1 else 0) + successes rest
  end.

(** A device record is live from the [kmalloc] of its [dfu_prepare] to the
    [kfree] of its [dfu_cleanup]. *)
Definition live (s : driver) (p : positive) (d : dfu_device) : Prop :=
  kheap s !! p = Some d.

(** The descriptor check of [dfu_prepare] lets the interface through. *)
Definition valid_fdsc (i : usb_interface) : Prop :=
  exists fd, extra i = Some fd
             /\ extralen i = USB_DFU_FUNC_DSCLEN
             /\ dsctyp fd = USB_DFU_FUNC_DSCTYP.

End Lifecycle.

(** ** Control transfers: data *)

Inductive direction := USB_DIR_OUT | USB_DIR_IN.

(** A control pipe: what [usb_sndctrlpipe] and [usb_rcvctrlpipe] pack into an
    integer. *)
Record usb_pipe := {
  pipe_dir : direction;
  pipe_dev : usb_device;
  pipe_endpoint : Z
}.

Definition usb_sndctrlpipe (d : usb_device) (ep : Z) : usb_pipe :=
  {| pipe_dir := USB_DIR_OUT; pipe_dev := d; pipe_endpoint := ep |}.

Definition usb_rcvctrlpipe (d : usb_device) (ep : Z) : usb_pipe :=
  {| pipe_dir := USB_DIR_IN; pipe_dev := d; pipe_endpoint := ep |}.

(** [struct usb_ctrlrequest], the 8-byte setup packet. *)
Record usb_ctrlrequest := {
  bRequestType : Z;
  bRequest : Z;
  wValue : le16;
  wIndex : le16;
  wLength : le16
}.

(** A plain 0 stored into a [__le16] field. *)
Definition le16_zero : le16 := {| lo_byte := 0; hi_byte := 0 |}.

(** The setup packet as the bytes that go over the wire. *)
Definition setup_bytes (r : usb_ctrlrequest) : list Z :=
  [bRequestType r; bRequest r;
   lo_byte (wValue r); hi_byte (wValue r);
   lo_byte (wIndex r); hi_byte (wIndex r);
   lo_byte (wLength r); hi_byte (wLength r)].

(** What [ctrl->buff] can point to. *)
Inductive buffer := buff_NULL | buff_dfuStatus | buff_dfuState.

(** [struct urb], with the fields [usb_fill_control_urb] sets; the completion
    handler is always [dfu_ctrlurb_done] and its context the container.
    [setup_packet] points into the container: it holds the request as it was
    when the urb was filled, which is also what is submitted, since nothing
    writes the request in between. *)
Record urb_t := {
  urb_dev : option usb_device;
  urb_pipe : option usb_pipe;
  setup_packet : option usb_ctrlrequest;
  transfer_buffer : buffer;
  transfer_buffer_length : Z
}.

(** A urb fresh from [usb_alloc_urb] is zeroed. *)
Definition zeroed_urb : urb_t :=
  {| urb_dev := None; urb_pipe := None; setup_packet := None;
     transfer_buffer := buff_NULL; transfer_buffer_length := 0 |}.

(** Modelled from the spec: [struct dfu_control] of [usbdfu.h], with the fields
    the source uses.  [urbdone] is the [done] count of the completion. *)
Record dfu_control := {
  req : usb_ctrlrequest;
  pipe : usb_pipe;
  buff : buffer;
  len : Z;
  urb : option urb_t;
  urbdone : Z;
  status : Z;
  nxfer : Z;
  dfuStatus : list Z;
  dfuState : Z
}.

Definition set_bRequestType (v : Z) (r : usb_ctrlrequest) : usb_ctrlrequest :=
  {| bRequestType := v; bRequest := bRequest r; wValue := wValue r;
     wIndex := wIndex r; wLength := wLength r |}.
Definition set_bRequest (v : Z) (r : usb_ctrlrequest) : usb_ctrlrequest :=
  {| bRequestType := bRequestType r; bRequest := v; wValue := wValue r;
     wIndex := wIndex r; wLength := wLength r |}.
Definition set_wValue (v : le16) (r : usb_ctrlrequest) : usb_ctrlrequest :=
  {| bRequestType := bRequestType r; bRequest := bRequest r; wValue := v;
     wIndex := wIndex r; wLength := wLength r |}.
Definition set_wIndex (v : le16) (r : usb_ctrlrequest) : usb_ctrlrequest :=
  {| bRequestType := bRequestType r; bRequest := bRequest r; wValue := wValue r;
     wIndex := v; wLength := wLength r |}.
Definition set_wLength (v : le16) (r : usb_ctrlrequest) : usb_ctrlrequest :=
  {| bRequestType := bRequestType r; bRequest := bRequest r; wValue := wValue r;
     wIndex := wIndex r; wLength := v |}.

Definition set_req (v : usb_ctrlrequest) (c : dfu_control) : dfu_control :=
  {| req := v; pipe := pipe c; buff := buff c; len := len c; urb := urb c;
     urbdone := urbdone c; status := status c; nxfer := nxfer c;
     dfuStatus := dfuStatus c; dfuState := dfuState c |}.
Definition set_pipe (v : usb_pipe) (c : dfu_control) : dfu_control :=
  {| req := req c; pipe := v; buff := buff c; len := len c; urb := urb c;
     urbdone := urbdone c; status := status c; nxfer := nxfer c;
     dfuStatus := dfuStatus c; dfuState := dfuState c |}.
Definition set_buff (v : buffer) (c : dfu_control) : dfu_control :=
  {| req := req c; pipe := pipe c; buff := v; len := len c; urb := urb c;
     urbdone := urbdone c; status := status c; nxfer := nxfer c;
     dfuStatus := dfuStatus c; dfuState := dfuState c |}.
Definition set_len (v : Z) (c : dfu_control) : dfu_control :=
  {| req := req c; pipe := pipe c; buff := buff c; len := v; urb := urb c;
     urbdone := urbdone c; status := status c; nxfer := nxfer c;
     dfuStatus := dfuStatus c; dfuState := dfuState c |}.
Definition set_urb (v : option urb_t) (c : dfu_control) : dfu_control :=
  {| req := req c; pipe := pipe c; buff := buff c; len := len c; urb := v;
     urbdone := urbdone c; status := status c; nxfer := nxfer c;
     dfuStatus := dfuStatus c; dfuState := dfuState c |}.
Definition set_urbdone (v : Z) (c : dfu_control) : dfu_control :=
  {| req := req c; pipe := pipe c; buff := buff c; len := len c; urb := urb c;
     urbdone := v; status := status c; nxfer := nxfer c;
     dfuStatus := dfuStatus c; dfuState := dfuState c |}.
Definition set_status (v : Z) (c : dfu_control) : dfu_control :=
  {| req := req c; pipe := pipe c; buff := buff c; len := len c; urb := urb c;
     urbdone := urbdone c; status := v; nxfer := nxfer c;
     dfuStatus := dfuStatus c; dfuState := dfuState c |}.
Definition set_nxfer (v : Z) (c : dfu_control) : dfu_control :=
  {| req := req c; pipe := pipe c; buff := buff c; len := len c; urb := urb c;
     urbdone := urbdone c; status := status c; nxfer := v;
     dfuStatus := dfuStatus c; dfuState := dfuState c |}.
Definition set_dfuStatus (v : list Z) (c : dfu_control) : dfu_control :=
  {| req := req c; pipe := pipe c; buff := buff c; len := len c; urb := urb c;
     urbdone := urbdone c; status := status c; nxfer := nxfer c;
     dfuStatus := v; dfuState := dfuState c |}.
Definition set_dfuState (v : Z) (c : dfu_control) : dfu_control :=
  {| req := req c; pipe := pipe c; buff := buff c; len := len c; urb := urb c;
     urbdone := urbdone c; status := status c; nxfer := nxfer c;
     dfuStatus := dfuStatus c; dfuState := v |}.

(** ** Control transfers: what the calling thread does, in order *)

(** A kernel call that has returned, with what went in or came out, and the
    completion handler being run by the USB core. *)
Inductive event :=
| Ev_usb_alloc_urb (ok : bool)
| Ev_usb_fill_control_urb (u : urb_t)
| Ev_init_completion
| Ev_usb_submit_urb (u : option urb_t) (retusb : Z)
| Ev_urb_complete (urb_status urb_actual_length : Z)
| Ev_wait_for_completion_timeout (jiffies left : Z)
| Ev_usb_unlink_urb (u : option urb_t)
| Ev_wait_for_completion
| Ev_usb_free_urb (u : option urb_t)
| Ev_dev_err (m : message)
| Ev_dev_info (m : message).

(** A computation on a request container either returns, or stays blocked in
    [wait_for_completion] for ever; both leave a container and the events so
    far. *)
Inductive result (A : Type) :=
| Done (a : A) (c : dfu_control) (evs : list event)
| Blocked (c : dfu_control) (evs : list event).
Arguments Done {A} a c evs.
Arguments Blocked {A} c evs.

Definition io (A : Type) : Type := dfu_control -> result A.

Definition ret {A} (a : A) : io A := fun c => Done a c [].

Definition bind {A B} (m : io A) (k : A -> io B) : io B :=
  fun c =>
    match m c with
    | Done a c1 e1 =>
        match k a c1 with
        | Done b c2 e2 => Done b c2 (e1 ++ e2)
        | Blocked c2 e2 => Blocked c2 (e1 ++ e2)
        end
    | Blocked c1 e1 => Blocked c1 e1
    end.

Declare Scope io_scope.
Delimit Scope io_scope with io.
Notation "x <- m ;; k" := (bind m (fun x => k))
  (at level 100, m at next level, right associativity) : io_scope.
Notation "m ;; k" := (bind m (fun _ => k))
  (at level 100, right associativity) : io_scope.

Definition rd {A} (f : dfu_control -> A) : io A := fun c => Done (f c) c [].
Definition upd (f : dfu_control -> dfu_control) : io unit :=
  fun c => Done tt (f c) [].
Definition upd_req (g : usb_ctrlrequest -> usb_ctrlrequest) : io unit :=
  upd (fun c => set_req (g (req c)) c).
Definition emit (e : event) : io unit := fun c => Done tt c [e].
Definition block {A} : io A := fun c => Blocked c [].

Definition final_ctrl {A} (r : result A) : dfu_control :=
  match r with Done _ c _ => c | Blocked c _ => c end.
Definition events {A} (r : result A) : list event :=
  match r with Done _ _ e => e | Blocked _ e => e end.
Definition returned {A} (r : result A) : option A :=
  match r with Done a _ _ => Some a | Blocked _ _ => None end.

(** ** Control transfers: the USB core *)

(** The USB core and the scheduler are not code of the driver: their calls are
    modelled by their contracts ([usb_submit_urb] accepts or rejects, the
    completion handler of an accepted urb runs once, an unlink provokes it,
    [wait_for_completion] returns only once [complete] was called), with the
    kernel's answers during one call given up front. *)

(** When the USB core calls the completion handler of a submitted urb,
    relative to what the submitting thread does. *)
Inductive completion_time :=
| before_timeout      (* while the thread is in the bounded wait *)
| before_unlink       (* after the bounded wait ran out, ahead of the unlink *)
| after_unlink        (* provoked by the unlink *)
| never_completes.    (* the core breaks its promise to call the handler *)

(** What the kernel answers during one call of [dfu_submit_urb]. *)
Record usb_core := {
  msecs_to_jiffies : Z -> Z;
  alloc_urb_ok : bool;              (* usb_alloc_urb returns a urb *)
  submit_ret : Z;                   (* what usb_submit_urb returns *)
  completes : completion_time;
  giveback_status : Z;              (* urb->status at completion *)
  giveback_actual_length : Z;       (* urb->actual_length at completion *)
  giveback_data : list Z            (* the bytes the device sent *)
}.

Definition is_before_timeout (t : completion_time) : bool :=
  match t with before_timeout => true | _ => false end.
Definition is_before_unlink (t : completion_time) : bool :=
  match t with before_unlink => true | _ => false end.
Definition is_after_unlink (t : completion_time) : bool :=
  match t with after_unlink => true | _ => false end.

Section Engine.

Context {H : usbdfu_h}.
Variable P : module_params.
Variable K : usb_core.

Local Open Scope io_scope.

Definition usb_alloc_urb : io bool :=
  (if alloc_urb_ok K then upd (set_urb (Some zeroed_urb)) else ret tt) ;;
  emit (Ev_usb_alloc_urb (alloc_urb_ok K)) ;;
  ret (alloc_urb_ok K).

Definition usb_fill_control_urb (dev : usb_device) : io unit :=
  c <- rd (fun c => c) ;;
  let u := {| urb_dev := Some dev; urb_pipe := Some (pipe c);
              setup_packet := Some (req c);
              transfer_buffer := buff c;
              transfer_buffer_length := len c |} in
  upd (set_urb (Some u)) ;;
  emit (Ev_usb_fill_control_urb u).

Definition init_completion : io unit :=
  upd (set_urbdone 0) ;; emit Ev_init_completion.

Definition complete : io unit :=
  upd (fun c => set_urbdone (urbdone c + 1) c).

(** The completion handler. *)
Definition dfu_ctrlurb_done (urb_status urb_actual_length : Z) : io unit :=
  upd (set_status urb_status) ;;
  upd (set_nxfer urb_actual_length) ;;
  complete.

(** The bytes received land in the transfer buffer of the urb, as many as it
    has room for. *)
Definition store_rx (data : list Z) (c : dfu_control) : dfu_control :=
  match urb c with
  | None => c
  | Some u =>
      let rx := firstn (Z.to_nat (transfer_buffer_length u)) data in
      match transfer_buffer u with
      | buff_NULL => c
      | buff_dfuStatus =>
          set_dfuStatus (rx ++ skipn (length rx) (dfuStatus c)) c
      | buff_dfuState =>
          match rx with
          | b :: _ => set_dfuState b c
          | [] => c
          end
      end
  end.

(** The USB core finishes the transfer: data stored, handler called. *)
Definition usb_giveback : io unit :=
  upd (store_rx (giveback_data K)) ;;
  emit (Ev_urb_complete (giveback_status K) (giveback_actual_length K)) ;;
  dfu_ctrlurb_done (giveback_status K) (giveback_actual_length K).

Definition usb_submit_urb : io Z :=
  u <- rd urb ;;
  emit (Ev_usb_submit_urb u (submit_ret K)) ;;
  ret (submit_ret K).

(** Returns 0 when the time ran out, and what was left of it otherwise. *)
Definition wait_for_completion_timeout (jiffies : Z) : io Z :=
  (if is_before_timeout (completes K) then usb_giveback else ret tt) ;;
  d <- rd urbdone ;;
  if 0 <? d then
    upd (set_urbdone (d - 1)) ;;
    emit (Ev_wait_for_completion_timeout jiffies 1) ;;
    ret 1
  else
    emit (Ev_wait_for_completion_timeout jiffies 0) ;;
    ret 0.

Definition usb_unlink_urb : io unit :=
  (if is_before_unlink (completes K) then usb_giveback else ret tt) ;;
  u <- rd urb ;;
  emit (Ev_usb_unlink_urb u) ;;
  (if is_after_unlink (completes K) then usb_giveback else ret tt).

(** No timeout and no interruption: the only way out is a [complete]. *)
Definition wait_for_completion : io unit :=
  d <- rd urbdone ;;
  if 0 <? d then
    upd (set_urbdone (d - 1)) ;;
    emit Ev_wait_for_completion
  else block.

Definition usb_free_urb : io unit :=
  u <- rd urb ;; emit (Ev_usb_free_urb u).

Definition dev_err_ctrl (m : message) : io unit := emit (Ev_dev_err m).
Definition dev_info_ctrl (m : message) : io unit := emit (Ev_dev_info m).

(** ** The transfer engine *)

Definition dfu_urb_timeout (dfudev : dfu_device) : io unit :=
  usb_unlink_urb ;;
  wait_for_completion ;;
  r <- rd req ;;
  if negb (bRequest r =? USB_DFU_ABORT) then
    dev_err_ctrl (URB_cancelled (bRequestType r) (bRequest r))
  else ret tt.

Definition dfu_submit_urb (dfudev : dfu_device) : io Z :=
  let rest (alloc : bool) : io Z :=
    usb_fill_control_urb (usbdev dfudev) ;;
    init_completion ;;
    upd (set_status USB_DFU_ERROR_CODE) ;;
    retusb <- usb_submit_urb ;;
    (if retusb =? 0 then
       let jiff_wait := msecs_to_jiffies K (urb_timeout P) in
       left <- wait_for_completion_timeout jiff_wait ;;
       if left =? 0 then dfu_urb_timeout dfudev else ret tt
     else
       r <- rd req ;;
       dev_err_ctrl (URB_submit_failed (bRequestType r) (bRequest r) retusb)) ;;
    (if alloc then usb_free_urb ;; upd (set_urb None) else ret tt) ;;
    retv <- rd status ;;
    r <- rd req ;;
    (if negb (retv =? 0) && negb (bRequest r =? USB_DFU_ABORT) then
       st <- rd status ;;
       dev_err_ctrl (URB_request_failed (bRequestType r) (bRequest r) st)
     else ret tt) ;;
    rd status in
  u <- rd urb ;;
  match u with
  | None =>
      got <- usb_alloc_urb ;;
      if got then rest true
      else dev_err_ctrl Cannot_allocate_URB ;; ret (- ENOMEM)
  | Some _ => rest false
  end.

(** ** The protocol operations *)

Definition dfu_do_switch (dfudev : dfu_device) : io Z :=
  let tmout := if dettmout dfudev >? detach_timeout P
               then detach_timeout P else dettmout dfudev in
  upd_req (set_bRequestType 0x21) ;;
  upd_req (set_bRequest (u8 USB_DFU_DETACH)) ;;
  upd_req (set_wIndex (cpu_to_le16 (intfnum dfudev))) ;;
  upd_req (set_wValue (cpu_to_le16 tmout)) ;;
  upd_req (set_wLength le16_zero) ;;
  upd (set_pipe (usb_sndctrlpipe (usbdev dfudev) 0)) ;;
  upd (set_buff buff_NULL) ;;
  upd (set_len 0) ;;
  upd (set_urb None) ;;
  retusb <- dfu_submit_urb dfudev ;;
  (if (retusb =? 0) && (Z.land (attr dfudev) 0x08 =? 0) then
     dev_info_ctrl Need_reset_to_switch_to_DFU
   else ret tt) ;;
  ret retusb.

Definition dfu_abort (dfudev : dfu_device) : io Z :=
  upd_req (set_bRequestType 0x21) ;;
  upd_req (set_bRequest (u8 USB_DFU_ABORT)) ;;
  upd_req (set_wValue le16_zero) ;;
  upd_req (set_wLength le16_zero) ;;
  upd (set_pipe (usb_sndctrlpipe (usbdev dfudev) 0)) ;;
  upd (set_buff buff_NULL) ;;
  upd (set_len 0) ;;
  upd (set_urb None) ;;
  dfu_submit_urb dfudev.

Definition dfu_get_status (dfudev : dfu_device) : io Z :=
  upd_req (set_bRequestType 0xa1) ;;
  upd_req (set_bRequest (u8 USB_DFU_GETSTATUS)) ;;
  upd_req (set_wIndex (cpu_to_le16 (intfnum dfudev))) ;;
  upd_req (set_wValue le16_zero) ;;
  upd_req (set_wLength (cpu_to_le16 6)) ;;
  upd (set_pipe (usb_rcvctrlpipe (usbdev dfudev) 0)) ;;
  upd (set_buff buff_dfuStatus) ;;
  upd (set_len 6) ;;
  upd (set_urb None) ;;
  retv <- dfu_submit_urb dfudev ;;
  ret retv.

Definition dfu_get_state (dfudev : dfu_device) : io Z :=
  upd_req (set_bRequestType 0xa1) ;;
  upd_req (set_bRequest (u8 USB_DFU_GETSTATE)) ;;
  upd_req (set_wIndex (cpu_to_le16 (intfnum dfudev))) ;;
  upd_req (set_wValue le16_zero) ;;
  upd_req (set_wLength (cpu_to_le16 1)) ;;
  upd (set_pipe (usb_rcvctrlpipe (usbdev dfudev) 0)) ;;
  upd (set_buff buff_dfuState) ;;
  upd (set_len 1) ;;
  upd (set_urb None) ;;
  retv <- dfu_submit_urb dfudev ;;
  if retv =? 0 then rd dfuState else ret retv.

Definition dfu_clr_status (dfudev : dfu_device) : io Z :=
  upd_req (set_bRequestType 0x21) ;;
  upd_req (set_bRequest (u8 USB_DFU_CLRSTATUS)) ;;
  upd_req (set_wIndex (cpu_to_le16 (intfnum dfudev))) ;;
  upd_req (set_wValue le16_zero) ;;
  upd_req (set_wLength le16_zero) ;;
  upd (set_pipe (usb_sndctrlpipe (usbdev dfudev) 0)) ;;
  upd (set_buff buff_NULL) ;;
  upd (set_len 0) ;;
  upd (set_urb None) ;;
  dfu_submit_urb dfudev.

End Engine.

(** ** Counter range and concrete inputs *)

(** Between -1 and [INT_MAX - 1] the counter moves without wrapping, and a
    run of [dfu_prepare] calls keeps it there. *)
Definition counter_ok (s : driver) : Prop := -1 <= dfu_index s < INT_MAX.

(** A slot is available when fewer than [max_dfus] are in use. *)
Definition slot_available (P : module_params) (s : driver) : Prop :=
  slot_count s < max_dfus P.

Definition example_usbdev : usb_device :=
  {| usb_devnum := 3; dma_mask := true |}.

(** The functional descriptor of the spec's end-to-end example. *)
Definition example_fdsc : dfufdsc :=
  {| dsctyp := 0x21; fd_attr := 0x0D;
     tmout := cpu_to_le16 255; fd_xfersize := cpu_to_le16 1024 |}.

(** An interface with that descriptor, at address [p]. *)
Definition example_intf (p : positive) : usb_interface :=
  {| intf_ptr := p; extra := Some example_fdsc; extralen := 9;
     bInterfaceNumber := 0; interface_to_usbdev := example_usbdev |}.

Definition intf_A : usb_interface := example_intf 101.
Definition intf_B : usb_interface := example_intf 102.
Definition intf_C : usb_interface := example_intf 103.

(** An interface whose class-specific descriptor is two bytes short. *)
Definition short_intf : usb_interface :=
  {| intf_ptr := 104; extra := Some example_fdsc; extralen := 7;
     bInterfaceNumber := 0; interface_to_usbdev := example_usbdev |}.

(** The driver right after [usbdfu_init] got major number 240. *)
Definition fresh_driver : driver := driver_init (MKDEV 240 0).

(** Eight interfaces, and the driver with all eight attached. *)
Definition eight_calls : list (bool * usb_interface) :=
  map (fun p => (true, example_intf p))
    [1; 2; 3; 4; 5; 6; 7; 8]%positive.

Definition full_driver : driver :=
  snd (prepare_all (H := dfu_class_header) default_params eight_calls
         fresh_driver).

(** Two devices attached, the first one detached again, a third attached. *)
Definition out_of_order_detach : list lifecycle_event :=
  [attach true intf_A; attach true intf_B; detach intf_A; attach true intf_C].

(** ** Reading event lists *)

Definition is_unlink (e : event) : bool :=
  match e with Ev_usb_unlink_urb _ => true | _ => false end.
Definition is_timed_wait (e : event) : bool :=
  match e with Ev_wait_for_completion_timeout _ _ => true | _ => false end.
Definition is_untimed_wait (e : event) : bool :=
  match e with Ev_wait_for_completion => true | _ => false end.
Definition is_completion (e : event) : bool :=
  match e with Ev_urb_complete _ _ => true | _ => false end.

Fixpoint count_events (p : event -> bool) (evs : list event) : nat :=
  match evs with
  | [] => O
  | e :: rest => if p e then S (count_events p rest) else count_events p rest
  end.

(** The events behind the first one that [p] picks. *)
Fixpoint events_after (p : event -> bool) (evs : list event) : list event :=
  match evs with
  | [] => []
  | e :: rest => if p e then rest else events_after p rest
  end.

(** The events ahead of the first one that [p] picks. *)
Fixpoint events_before (p : event -> bool) (evs : list event) : list event :=
  match evs with
  | [] => []
  | e :: rest => if p e then [] else e :: events_before p rest
  end.

(** The setup packets handed to [usb_submit_urb]. *)
Fixpoint submitted (evs : list event) : list (option usb_ctrlrequest) :=
  match evs with
  | [] => []
  | Ev_usb_submit_urb u _ :: rest =>
      match u with
      | Some v => setup_packet v
      | None => None
      end :: submitted rest
  | _ :: rest => submitted rest
  end.

(** A transfer handle is at hand: the caller brought one, or [usb_alloc_urb]
    delivers. *)
Definition urb_at_hand (K : usb_core) (c : dfu_control) : Prop :=
  urb c = None -> alloc_urb_ok K = true.

(** ** The container on its way into [dfu_submit_urb] *)

(** What the assignments at the head of [dfu_do_switch], [dfu_abort] and
    [dfu_get_state] make of the caller's container. *)
Definition switch_request {H : usbdfu_h} (P : module_params)
    (dfudev : dfu_device) (c : dfu_control) : dfu_control :=
  let tmout := if dettmout dfudev >? detach_timeout P
               then detach_timeout P else dettmout dfudev in
  set_urb None (set_len 0 (set_buff buff_NULL
    (set_pipe (usb_sndctrlpipe (usbdev dfudev) 0)
      (set_req
         (set_wLength le16_zero (set_wValue (cpu_to_le16 tmout)
            (set_wIndex (cpu_to_le16 (intfnum dfudev))
               (set_bRequest (u8 USB_DFU_DETACH)
                  (set_bRequestType 0x21 (req c)))))) c)))).

Definition abort_request {H : usbdfu_h} (dfudev : dfu_device)
    (c : dfu_control) : dfu_control :=
  set_urb None (set_len 0 (set_buff buff_NULL
    (set_pipe (usb_sndctrlpipe (usbdev dfudev) 0)
      (set_req
         (set_wLength le16_zero (set_wValue le16_zero
            (set_bRequest (u8 USB_DFU_ABORT)
               (set_bRequestType 0x21 (req c))))) c)))).

Definition get_state_request {H : usbdfu_h} (dfudev : dfu_device)
    (c : dfu_control) : dfu_control :=
  set_urb None (set_len 1 (set_buff buff_dfuState
    (set_pipe (usb_rcvctrlpipe (usbdev dfudev) 0)
      (set_req
         (set_wLength (cpu_to_le16 1) (set_wValue le16_zero
            (set_wIndex (cpu_to_le16 (intfnum dfudev))
               (set_bRequest (u8 USB_DFU_GETSTATE)
                  (set_bRequestType 0xa1 (req c)))))) c)))).

(** ** The transfer engine, case by case *)

(** What a call of [dfu_submit_urb] comes to, read off the kernel's answers:
    the value returned, the container left behind and the events in order.
    [dfu_submit_urb_outcome] below proves that the engine computes just
    this. *)
Definition submit_outcome {H : usbdfu_h} (P : module_params) (K : usb_core)
    (dfudev : dfu_device) (c : dfu_control) : result Z :=
  let alloc := match urb c with None => true | Some _ => false end in
  let u := {| urb_dev := Some (usbdev dfudev); urb_pipe := Some (pipe c);
              setup_packet := Some (req c);
              transfer_buffer := buff c;
              transfer_buffer_length := len c |} in
  let armed :=
    set_status USB_DFU_ERROR_CODE (set_urbdone 0 (set_urb (Some u) c)) in
  let completed :=
    set_urbdone 0
      (set_nxfer (giveback_actual_length K)
         (set_status (giveback_status K)
            (store_rx (giveback_data K) armed))) in
  let release (x : dfu_control) := if alloc then set_urb None x else x in
  let rtype := bRequestType (req c) in
  let rcode := bRequest (req c) in
  let head :=
    (if alloc then [Ev_usb_alloc_urb true] else [])
    ++ [Ev_usb_fill_control_urb u; Ev_init_completion;
        Ev_usb_submit_urb (Some u) (submit_ret K)] in
  let fired :=
    Ev_urb_complete (giveback_status K) (giveback_actual_length K) in
  let timed (left : Z) :=
    Ev_wait_for_completion_timeout
      (msecs_to_jiffies K (urb_timeout P)) left in
  let cancelled :=
    if negb (rcode =? USB_DFU_ABORT)
    then [Ev_dev_err (URB_cancelled rtype rcode)] else [] in
  let free := if alloc then [Ev_usb_free_urb (Some u)] else [] in
  let failed (st : Z) :=
    if negb (st =? 0) && negb (rcode =? USB_DFU_ABORT)
    then [Ev_dev_err (URB_request_failed rtype rcode st)] else [] in
  if alloc && negb (alloc_urb_ok K) then
    Done (- ENOMEM) c [Ev_usb_alloc_urb false; Ev_dev_err Cannot_allocate_URB]
  else if submit_ret K =? 0 then
    match completes K with
    | before_timeout =>
        Done (giveback_status K) (release completed)
          (head ++ [fired; timed 1] ++ free ++ failed (giveback_status K))
    | before_unlink =>
        Done (giveback_status K) (release completed)
          (head ++ [timed 0; fired; Ev_usb_unlink_urb (Some u);
                    Ev_wait_for_completion]
                ++ cancelled ++ free ++ failed (giveback_status K))
    | after_unlink =>
        Done (giveback_status K) (release completed)
          (head ++ [timed 0; Ev_usb_unlink_urb (Some u); fired;
                    Ev_wait_for_completion]
                ++ cancelled ++ free ++ failed (giveback_status K))
    | never_completes =>
        Blocked armed (head ++ [timed 0; Ev_usb_unlink_urb (Some u)])
    end
  else
    Done USB_DFU_ERROR_CODE (release armed)
      (head ++ [Ev_dev_err (URB_submit_failed rtype rcode (submit_ret K))]
            ++ free ++ failed USB_DFU_ERROR_CODE).

(** ** Concrete inputs for the transfer engine *)

(** A device on interface 0 that declares a detach timeout of 5000 ms. *)
Definition example_dfudev : dfu_device :=
  {| index := 0; attr := 0x0D; dettmout := 5000; xfersize := 1024;
     intf := 101; usbdev := example_usbdev; intfnum := 0;
     devnum := MKDEV 240 0; dma := 1 |}.

(** A container whose request still holds a GETSTATUS for interface 3. *)
Definition stale_ctrl : dfu_control :=
  {| req := {| bRequestType := 0xa1; bRequest := 3; wValue := le16_zero;
               wIndex := cpu_to_le16 3; wLength := cpu_to_le16 6 |};
     pipe := usb_rcvctrlpipe example_usbdev 0;
     buff := buff_dfuStatus; len := 6; urb := None; urbdone := 0;
     status := 0; nxfer := 6; dfuStatus := [0; 0; 0; 0; 2; 0];
     dfuState := 0 |}.

(** A kernel with HZ = 250 that has memory for a urb, answers the submission
    with [retusb], and completes the urb at [t] with status [st] and the
    bytes [data]. *)
Definition kernel (retusb : Z) (t : completion_time) (st : Z)
    (data : list Z) : usb_core :=
  {| msecs_to_jiffies := fun m => (m + 3) / 4;
     alloc_urb_ok := true;
     submit_ret := retusb;
     completes := t;
     giveback_status := st;
     giveback_actual_length := Z.of_nat (length data);
     giveback_data := data |}.

(** * The rest of the driver *)

(** ** Device numbers *)

(** [linux/kdev_t.h], the other half of [MKDEV]. *)
Definition MINORMASK : Z := Z.shiftl 1 MINORBITS - 1.
Definition MINOR (dev : Z) : Z := Z.land dev MINORMASK.

(** ** Detaching in reverse order of attaching *)

Definition indices_distinct (s : driver) : Prop :=
  forall p q d e,
    p <> q -> kheap s !! p = Some d -> kheap s !! q = Some e ->
    index d <> index e.

(** The interface about to be detached holds the record attached last: the
    one whose index is the value of the counter. *)
Definition detaches_newest (i : usb_interface) (s : driver) : Prop :=
  exists p d,
    usb_get_intfdata i s = Some p
    /\ kheap s !! p = Some d
    /\ index d = dfu_index s.

(** Every detach of the run takes the newest record. *)
Fixpoint last_in_first_out {H : usbdfu_h} (P : module_params)
    (es : list lifecycle_event) (s : driver) : Prop :=
  match es with
  | [] => True
  | e :: rest =>
      match e with
      | attach _ _ => True
      | detach i => detaches_newest i s
      end
      /\ last_in_first_out P rest (lifecycle_step P e s)
  end.

(** Live records hold the indices from 0 up to the counter, each once. *)
Definition stacked (s : driver) : Prop :=
  counter_ok s
  /\ (forall p d, kheap s !! p = Some d -> 0 <= index d <= dfu_index s)
  /\ indices_distinct s.

(** ** Probe and disconnect *)

(** Who answers reads and writes of a sysfs attribute. *)
Inductive attr_handler := handler_dfu_show | handler_dfu_switch.

(** [struct device_attribute] as [dfu_probe] fills it in. *)
Record device_attribute := {
  attr_name : list Z;            (* the characters of the name *)
  attr_mode : Z;
  attr_show : attr_handler;
  attr_store : attr_handler
}.

Definition S_IWUSR : Z := 128.   (* 00200 *)
Definition S_IRUSR : Z := 256.   (* 00400 *)
Definition S_IRGRP : Z := 32.    (* 00040 *)
Definition S_IROTH : Z := 4.     (* 00004 *)

(** The characters of "detach". *)
Definition detach_name : list Z := [100; 101; 116; 97; 99; 104].

Inductive probe_message :=
| Cannot_create_sysfs_file (retv : Z).

(** The driver state together with what [dfu_probe] adds to it: the sysfs
    file of each interface, the [proto] member of each device record (which
    [dfu_prepare] leaves unassigned), and the messages of [dfu_probe]. *)
Record usb_bus := {
  drv : driver;
  sysfs : gmap positive device_attribute;
  protos : gmap positive Z;
  probe_log : list probe_message
}.

Definition bus_init (s : driver) : usb_bus :=
  {| drv := s; sysfs := ∅; protos := ∅; probe_log := [] |}.

(** [create_file_ret] is what [device_create_file] returns; the file exists
    afterwards when that is 0. *)
Definition dfu_probe {H : usbdfu_h} (P : module_params) (kmalloc_ok : bool)
    (create_file_ret : Z) (i : usb_interface) (b : usb_bus) : Z * usb_bus :=
  let '(retv, dfudevp, s1) := dfu_prepare P kmalloc_ok None i (drv b) in
  if negb (retv =? 0) then
    (retv, {| drv := s1; sysfs := sysfs b; protos := protos b;
              probe_log := probe_log b |})
  else
    match dfudevp with
    | None =>
        (retv, {| drv := s1; sysfs := sysfs b; protos := protos b;
                  probe_log := probe_log b |})
    | Some dfudev =>
        let actattr :=
          {| attr_name := detach_name;
             attr_mode :=
               Z.lor (Z.lor (Z.lor S_IWUSR S_IRUSR) S_IRGRP) S_IROTH;
             attr_show := handler_dfu_show;
             attr_store := handler_dfu_switch |} in
        let retv := create_file_ret in
        (retv,
         {| drv := s1;
            sysfs := if retv =? 0 then <[intf_ptr i := actattr]> (sysfs b)
                     else sysfs b;
            protos := <[dfudev := 1]> (protos b);
            probe_log := if negb (retv =? 0)
                         then probe_log b ++ [Cannot_create_sysfs_file retv]
                         else probe_log b |})
    end.

(** [None] when the interface has no driver data: [dfu_disconnect] would
    work on a NULL record then, which the USB core never makes it do.  The
    [proto] member goes with the record that [dfu_cleanup] frees. *)
Definition dfu_disconnect {H : usbdfu_h} (P : module_params)
    (i : usb_interface) (b : usb_bus) : option usb_bus :=
  match usb_get_intfdata i (drv b) with
  | None => None
  | Some dfudev =>
      Some {| drv := dfu_cleanup i dfudev (drv b);
              sysfs := delete (intf_ptr i) (sysfs b);
              protos := delete dfudev (protos b);
              probe_log := probe_log b |}
  end.

(** ** The write handler of the "detach" attribute *)

(** What a write does, in order: the [kmalloc] of a container, the events of
    [dfu_do_switch] or the complaint about the first character, the
    [kfree]. *)
Inductive switch_event :=
| Sw_kmalloc (ok : bool)
| Sw_transfer (e : event)
| Sw_invalid_command (c : Z)
| Sw_kfree.

(** The byte at [buf + n]; past the bytes written, sysfs has the buffer hold
    NUL. *)
Definition char_at (buf : list Z) (n : nat) : Z := nth n buf 0.

(** [ctrl_mem] is what [kmalloc] returns: nothing, or memory holding
    whatever it held before.  [count] is a [size_t], which sysfs keeps
    within a page, so that returning it as [ssize_t] does not change it.
    The result is the value returned, if the call returns, and the
    events. *)
Definition dfu_switch {H : usbdfu_h} (P : module_params) (K : usb_core)
    (dfudev : dfu_device) (ctrl_mem : option dfu_control)
    (buf : list Z) (count : Z) : option Z * list switch_event :=
  match ctrl_mem with
  | None => (Some (- ENOMEM), [Sw_kmalloc false])
  | Some ctrl =>
      if (count >? 0) && (char_at buf 0 =? 45)
         && ((char_at buf 1 =? 10) || (char_at buf 1 =? 0))
      then
        match dfu_do_switch P K dfudev ctrl with
        | Done _ _ evs =>
            (Some count,
             Sw_kmalloc true :: map Sw_transfer evs ++ [Sw_kfree])
        | Blocked _ evs =>
            (None, Sw_kmalloc true :: map Sw_transfer evs)
        end
      else
        (Some count,
         [Sw_kmalloc true; Sw_invalid_command (char_at buf 0); Sw_kfree])
  end.

Definition is_transfer (e : switch_event) : bool :=
  match e with Sw_transfer _ => true | _ => false end.

Fixpoint transfers (l : list switch_event) : list event :=
  match l with
  | [] => []
  | Sw_transfer e :: rest => e :: transfers rest
  | _ :: rest => transfers rest
  end.


(** ** Module init and exit *)

(** [linux/err.h]: an error code travelling as a pointer. *)
Definition MAX_ERRNO : Z := 4095.
Definition IS_ERR (ptr : Z) : bool := (- MAX_ERRNO <=? ptr) && (ptr <? 0).
Definition PTR_ERR (ptr : Z) : Z := ptr.

(** What the kernel answers during [usbdfu_init]. *)
Record init_answers := {
  alloc_chrdev_region_ret : Z;
  chrdev_first : Z;              (* the first device number of the region *)
  class_create_ret : Z;          (* a class, or an error as a pointer *)
  usb_register_ret : Z
}.

Inductive init_message :=
| Cannot_allocate_a_char_major_number (retv : Z)
| Cannot_create_DFU_class
| Cannot_register_USB_DFU_driver (retv : Z).

(** The globals [dfu_devnum] and [dfu_class], and what the module holds of
    the kernel: the char device regions (first number and count), the
    classes and whether the USB driver is registered. *)
Record module_state := {
  g_dfu_devnum : Z;
  g_dfu_class : Z;
  chrdev_regions : list (Z * Z);
  classes : list Z;
  usb_registered : bool;
  printk : list init_message
}.

Definition module_unloaded : module_state :=
  {| g_dfu_devnum := 0; g_dfu_class := 0; chrdev_regions := [];
     classes := []; usb_registered := false; printk := [] |}.

Definition remove_region (r : Z * Z) (l : list (Z * Z)) : list (Z * Z) :=
  List.filter (fun x => negb ((fst x =? fst r) && (snd x =? snd r))) l.

Definition remove_class (p : Z) (l : list Z) : list Z :=
  List.filter (fun x => negb (x =? p)) l.

Definition unregister_chrdev_region (first count : Z) (m : module_state)
    : module_state :=
  {| g_dfu_devnum := g_dfu_devnum m; g_dfu_class := g_dfu_class m;
     chrdev_regions := remove_region (first, count) (chrdev_regions m);
     classes := classes m; usb_registered := usb_registered m;
     printk := printk m |}.

Definition class_destroy (cls : Z) (m : module_state) : module_state :=
  {| g_dfu_devnum := g_dfu_devnum m; g_dfu_class := g_dfu_class m;
     chrdev_regions := chrdev_regions m;
     classes := remove_class cls (classes m);
     usb_registered := usb_registered m; printk := printk m |}.

Definition pr_err (msg : init_message) (m : module_state) : module_state :=
  {| g_dfu_devnum := g_dfu_devnum m; g_dfu_class := g_dfu_class m;
     chrdev_regions := chrdev_regions m; classes := classes m;
     usb_registered := usb_registered m; printk := printk m ++ [msg] |}.

Definition usbdfu_init (P : module_params) (A : init_answers)
    (m : module_state) : Z * module_state :=
  let retv := alloc_chrdev_region_ret A in
  if negb (retv =? 0) then
    (retv, pr_err (Cannot_allocate_a_char_major_number retv) m)
  else
    let m1 :=
      {| g_dfu_devnum := chrdev_first A; g_dfu_class := g_dfu_class m;
         chrdev_regions := (chrdev_first A, max_dfus P) :: chrdev_regions m;
         classes := classes m; usb_registered := usb_registered m;
         printk := printk m |} in
    let m2 :=
      {| g_dfu_devnum := g_dfu_devnum m1;
         g_dfu_class := class_create_ret A;
         chrdev_regions := chrdev_regions m1;
         classes := if IS_ERR (class_create_ret A) then classes m1
                    else class_create_ret A :: classes m1;
         usb_registered := usb_registered m1; printk := printk m1 |} in
    if IS_ERR (g_dfu_class m2) then
      let retv := wrap_int (PTR_ERR (g_dfu_class m2)) in
      (* err_10 *)
      (retv,
       unregister_chrdev_region (g_dfu_devnum m2) (max_dfus P)
         (pr_err Cannot_create_DFU_class m2))
    else
      let retv := usb_register_ret A in
      if negb (retv =? 0) then
        (* err_20, err_10 *)
        (retv,
         unregister_chrdev_region (g_dfu_devnum m2) (max_dfus P)
           (class_destroy (g_dfu_class m2)
              (pr_err (Cannot_register_USB_DFU_driver retv) m2)))
      else
        (retv,
         {| g_dfu_devnum := g_dfu_devnum m2; g_dfu_class := g_dfu_class m2;
            chrdev_regions := chrdev_regions m2; classes := classes m2;
            usb_registered := true; printk := printk m2 |}).

Definition usbdfu_exit (P : module_params) (m : module_state) : module_state :=
  unregister_chrdev_region (g_dfu_devnum m) (max_dfus P)
    (class_destroy (g_dfu_class m)
       {| g_dfu_devnum := g_dfu_devnum m; g_dfu_class := g_dfu_class m;
          chrdev_regions := chrdev_regions m; classes := classes m;
          usb_registered := false; printk := printk m |}).

(** The module holds nothing of the kernel. *)
Definition holds_nothing (m : module_state) : Prop :=
  chrdev_regions m = [] /\ classes m = [] /\ usb_registered m = false.

(** ** More ways to read event lists *)

Definition is_alloc (e : event) : bool :=
  match e with Ev_usb_alloc_urb _ => true | _ => false end.
Definition is_free (e : event) : bool :=
  match e with Ev_usb_free_urb _ => true | _ => false end.
Definition is_dev_err (e : event) : bool :=
  match e with Ev_dev_err _ => true | _ => false end.
Definition is_dev_info (e : event) : bool :=
  match e with Ev_dev_info _ => true | _ => false end.

(** The container as the remaining operations hand it to
    [dfu_submit_urb]. *)
Definition get_status_request {H : usbdfu_h} (dfudev : dfu_device)
    (c : dfu_control) : dfu_control :=
  set_urb None (set_len 6 (set_buff buff_dfuStatus
    (set_pipe (usb_rcvctrlpipe (usbdev dfudev) 0)
      (set_req
         (set_wLength (cpu_to_le16 6) (set_wValue le16_zero
            (set_wIndex (cpu_to_le16 (intfnum dfudev))
               (set_bRequest (u8 USB_DFU_GETSTATUS)
                  (set_bRequestType 0xa1 (req c)))))) c)))).

Definition clr_status_request {H : usbdfu_h} (dfudev : dfu_device)
    (c : dfu_control) : dfu_control :=
  set_urb None (set_len 0 (set_buff buff_NULL
    (set_pipe (usb_sndctrlpipe (usbdev dfudev) 0)
      (set_req
         (set_wLength le16_zero (set_wValue le16_zero
            (set_wIndex (cpu_to_le16 (intfnum dfudev))
               (set_bRequest (u8 USB_DFU_CLRSTATUS)
                  (set_bRequestType 0x21 (req c)))))) c)))).

(** The bytes of a well-formed functional descriptor are bytes. *)
Definition is_byte (x : Z) : Prop := 0 <= x < 256.
Definition le16_bytes (v : le16) : Prop :=
  is_byte (lo_byte v) /\ is_byte (hi_byte v).

(** ** Concrete inputs for the rest of the driver *)

(** The driver with the first interface attached; its record lies at the
    first address [kmalloc] hands out. *)
Definition attached_A : driver :=
  snd (dfu_prepare (H := dfu_class_header) default_params true None intf_A
         fresh_driver).

(** Two devices attached, the second one detached again, a third
    attached: each detach takes the device attached last. *)
Definition newest_first_detach : list lifecycle_event :=
  [attach true intf_A; attach true intf_B; detach intf_B; attach true intf_C].

(** The bus before any interface is probed. *)
Definition fresh_bus : usb_bus := bus_init fresh_driver.

(** The bus with the first interface probed, its sysfs file created. *)
Definition probed_A : usb_bus :=
  snd (dfu_probe (H := dfu_class_header) default_params true 0 intf_A
         fresh_bus).

(** A kernel that has no memory for a urb. *)
Definition kernel_without_memory : usb_core :=
  {| msecs_to_jiffies := fun m => (m + 3) / 4;
     alloc_urb_ok := false;
     submit_ret := 0;
     completes := before_timeout;
     giveback_status := 0;
     giveback_actual_length := 0;
     giveback_data := [] |}.

(** The container of [stale_ctrl] after a call that timed out. *)
Definition used_ctrl : dfu_control :=
  set_nxfer 0 (set_status (-104) stale_ctrl).

(** The six bytes of a GETSTATUS response: status OK, poll timeout 10 ms,
    state dfuIDLE, no string. *)
Definition status_response : list Z := [0; 10; 0; 0; 2; 0].

(** The characters of a write of "-" and a newline. *)
Definition detach_command : list Z := [45; 10].

(** The kernel hands out major number 240, a class and the registration. *)
Definition init_succeeds : init_answers :=
  {| alloc_chrdev_region_ret := 0; chrdev_first := MKDEV 240 0;
     class_create_ret := 4096; usb_register_ret := 0 |}.

(** The module after that [usbdfu_init]. *)
Definition module_loaded : module_state :=
  snd (usbdfu_init default_params init_succeeds module_unloaded).

(** * Properties of the slot counter and the device-record lifecycle *)

Lemma wrap_int_id (x : Z) : is_int x -> wrap_int x = x.
Proof.
  unfold is_int, INT_MIN, INT_MAX, wrap_int. intros Hx.
  rewrite Z.mod_small by lia. lia.
Qed.

Lemma wrap_int_inc_dec (x : Z) :
  is_int x -> wrap_int (wrap_int (x + 1) - 1) = x.
Proof.
  unfold is_int, INT_MIN, INT_MAX. intros Hx.
  destruct (Z.eq_dec x 2147483647) as [-> | Hne].
  - reflexivity.
  - rewrite (wrap_int_id (x + 1)) by (unfold is_int, INT_MIN, INT_MAX; lia).
    replace (x + 1 - 1) with x by lia.
    apply wrap_int_id. unfold is_int, INT_MIN, INT_MAX. lia.
Qed.

Section LifecycleFacts.

Context {H : usbdfu_h}.
Variable P : module_params.

(** The three ways through [dfu_prepare] past the descriptor check, and the
    one that stops at it. *)
Lemma dfu_prepare_invalid ok dp i s :
  ~ valid_fdsc i ->
  dfu_prepare P ok dp i s
  = (- ENODEV, dp, dev_err Invalid_DFU_functional_descriptor s).
Proof.
  intros Hinv. unfold dfu_prepare.
  destruct (extra i) as [fd |] eqn:Hextra; [| reflexivity].
  destruct (extralen i =? USB_DFU_FUNC_DSCLEN) eqn:Hlen; [| reflexivity].
  destruct (dsctyp fd =? USB_DFU_FUNC_DSCTYP) eqn:Htyp; [| reflexivity].
  exfalso. apply Hinv. exists fd.
  repeat split; [assumption | now apply Z.eqb_eq | now apply Z.eqb_eq].
Qed.

Lemma dfu_prepare_valid ok dp i s fd :
  extra i = Some fd ->
  extralen i = USB_DFU_FUNC_DSCLEN ->
  dsctyp fd = USB_DFU_FUNC_DSCTYP ->
  dfu_prepare P ok dp i s =
    let '(idx, s1) := atomic_inc_return s in
    if idx >=? max_dfus P then
      (- ENODEV, dp,
       atomic_dec (dev_err (Maximum_supported_USB_DFU_reached (max_dfus P)) s1))
    else
      match kmalloc ok s1 with
      | None => (- ENOMEM, None, atomic_dec s1)
      | Some p =>
          (0, Some p,
           usb_set_intfdata i (Some p)
             (store_dev p
                {| index := idx;
                   attr := fd_attr fd;
                   dettmout := le16_to_cpu (tmout fd);
                   xfersize := le16_to_cpu (fd_xfersize fd);
                   intf := intf_ptr i;
                   usbdev := interface_to_usbdev i;
                   intfnum := bInterfaceNumber i;
                   devnum := MKDEV (MAJOR (dfu_devnum s1)) idx;
                   dma := if dma_mask (interface_to_usbdev i) then 1 else 0 |}
                s1))
      end.
Proof.
  intros Hextra Hlen Htyp. unfold dfu_prepare.
  rewrite Hextra, Hlen, Htyp, !Z.eqb_refl. reflexivity.
Qed.

(** What a call of [dfu_prepare] does to the counter, by its return value. *)
Lemma dfu_prepare_counter ok dp i s :
  is_int (dfu_index s) ->
  let '(retv, _, s') := dfu_prepare P ok dp i s in
  (retv <> 0 /\ dfu_index s' = dfu_index s
   /\ kheap s' = kheap s /\ intfdata s' = intfdata s)
  \/ (retv = 0 /\ dfu_index s' = wrap_int (dfu_index s + 1)
      /\ dfu_index s' < max_dfus P).
Proof.
  intros Hint. unfold dfu_prepare.
  destruct (extra i) as [fd |]; [| left; repeat split; discriminate].
  destruct (negb _ || negb _); [left; repeat split; discriminate |].
  cbn [atomic_inc_return].
  destruct (wrap_int (dfu_index s + 1) >=? max_dfus P) eqn:Hfull.
  - left. cbn. repeat split; [discriminate | now apply wrap_int_inc_dec].
  - destruct ok; cbn.
    + right. repeat split. lia.
    + left. repeat split; [discriminate | now apply wrap_int_inc_dec].
Qed.

Lemma counter_ok_is_int s : counter_ok s -> is_int (dfu_index s).
Proof. unfold counter_ok, is_int, INT_MIN, INT_MAX. lia. Qed.

Lemma dfu_prepare_slot_count ok dp i s :
  max_dfus P <= INT_MAX ->
  counter_ok s ->
  let '(retv, _, s') := dfu_prepare P ok dp i s in
  counter_ok s'
  /\ slot_count s' = slot_count s + (if retv =? 0 then 1 else 0).
Proof.
  intros Hmax Hok.
  pose proof (dfu_prepare_counter ok dp i s (counter_ok_is_int s Hok)) as Hc.
  destruct (dfu_prepare P ok dp i s) as [[retv dp'] s'].
  unfold counter_ok, slot_count in *.
  destruct Hc as [(Hne & Hidx & _) | (-> & Hidx & Hlt)].
  - rewrite Hidx. destruct (Z.eqb_spec retv 0); [contradiction | lia].
  - rewrite wrap_int_id in Hidx
      by (unfold is_int, INT_MIN, INT_MAX in *; lia).
    cbn. lia.
Qed.

Lemma prepare_all_slot_count calls :
  max_dfus P <= INT_MAX ->
  forall s, counter_ok s ->
  let '(rets, s') := prepare_all P calls s in
  counter_ok s'
  /\ length rets = length calls
  /\ slot_count s' = slot_count s + successes rets.
Proof.
  intros Hmax. induction calls as [| [ok i] rest IH]; intros s Hok.
  - cbn. split; [assumption |]. split; [reflexivity | lia].
  - cbn [prepare_all].
    pose proof (dfu_prepare_slot_count ok None i s Hmax Hok) as Hstep.
    destruct (dfu_prepare P ok None i s) as [[retv dp'] s1].
    destruct Hstep as [Hok1 Hcount1].
    specialize (IH s1 Hok1).
    destruct (prepare_all P rest s1) as [rets s2].
    destruct IH as (Hok2 & Hlen & Hcount2).
    split; [assumption |]. split; [cbn [length]; lia |].
    rewrite Hcount2, Hcount1. cbn [successes].
    destruct (retv =? 0); lia.
Qed.

Lemma successes_all_zero (rets : list Z) :
  Forall (fun r => r = 0) rets ->
  successes rets = Z.of_nat (length rets).
Proof.
  induction 1 as [| r rest -> _ IH]; [reflexivity |].
  cbn [successes length]. rewrite IH. cbn. lia.
Qed.

End LifecycleFacts.

(** ** The claims on [dfu_prepare] and [dfu_cleanup] *)

(** C1, evaluated where the code departs from it: the driver attaches
    interfaces A and B, detaches A and attaches C, never more than two of the
    eight slots in use.  The counter hands C the index 1 that the live record
    of B still holds, and with it the same device number. *)
Theorem dfu_index_shared_after_out_of_order_detach :
  let s := lifecycle_run (H := dfu_class_header) default_params
             out_of_order_detach fresh_driver in
  exists pB pC dB dC,
    usb_get_intfdata intf_B s = Some pB
    /\ usb_get_intfdata intf_C s = Some pC
    /\ pB <> pC
    /\ live s pB dB /\ live s pC dC
    /\ intf dB = intf_ptr intf_B /\ intf dC = intf_ptr intf_C
    /\ index dB = 1 /\ index dC = 1
    /\ devnum dB = devnum dC
    /\ slot_count s = 2.
Proof.
  set (dB := {| index := 1; attr := 13; dettmout := 255; xfersize := 1024;
                intf := 102; usbdev := example_usbdev; intfnum := 0;
                devnum := MKDEV 240 1; dma := 1 |}).
  set (dC := {| index := 1; attr := 13; dettmout := 255; xfersize := 1024;
                intf := 103; usbdev := example_usbdev; intfnum := 0;
                devnum := MKDEV 240 1; dma := 1 |}).
  exists 2%positive, 3%positive, dB, dC.
  repeat split; try (vm_compute; reflexivity).
  discriminate.
Qed.

(** C6: when the functional descriptor is absent, or of another length than
    the fixed one, or tagged with another descriptor type, [dfu_prepare]
    returns [-ENODEV], leaves the caller's record pointer as it was, creates
    no device record, sets no driver-private data and does not touch the slot
    counter. *)
Theorem dfu_prepare_invalid_descriptor {H : usbdfu_h} (P : module_params)
    (ok : bool) (dp : option positive) (i : usb_interface) (s : driver) :
  (extra i = None
   \/ extralen i <> USB_DFU_FUNC_DSCLEN
   \/ exists fd, extra i = Some fd /\ dsctyp fd <> USB_DFU_FUNC_DSCTYP) ->
  exists s',
    dfu_prepare P ok dp i s = (- ENODEV, dp, s')
    /\ kheap s' = kheap s
    /\ intfdata s' = intfdata s
    /\ dfu_index s' = dfu_index s
    /\ klog s' = klog s ++ [Invalid_DFU_functional_descriptor].
Proof.
  intros Hbad.
  exists (dev_err Invalid_DFU_functional_descriptor s).
  split; [| repeat split].
  apply dfu_prepare_invalid.
  intros (fd & Hextra & Hlen & Htyp).
  destruct Hbad as [Hnone | [Hlen' | (fd' & Hextra' & Htyp')]];
    congruence.
Qed.

Lemma dfu_prepare_invalid_descriptor_witness :
  extralen short_intf <> USB_DFU_FUNC_DSCLEN (usbdfu_h := dfu_class_header)
  /\ exists s',
       dfu_prepare (H := dfu_class_header) default_params true None
         short_intf fresh_driver = (- ENODEV, None, s')
       /\ kheap s' = kheap fresh_driver
       /\ intfdata s' = intfdata fresh_driver
       /\ dfu_index s' = dfu_index fresh_driver
       /\ klog s' = klog fresh_driver ++ [Invalid_DFU_functional_descriptor].
Proof.
  assert (Hlen : extralen short_intf
                 <> USB_DFU_FUNC_DSCLEN (usbdfu_h := dfu_class_header))
    by (cbn; lia).
  split; [exact Hlen |].
  apply (dfu_prepare_invalid_descriptor (H := dfu_class_header)).
  right. left. exact Hlen.
Defined.

(** C10: whenever [dfu_prepare] returns an error, the slot counter, the
    device records and the driver-private data are what they were before the
    call.  Past the descriptor check the counter has been incremented and is
    decremented again by one on the way out through [err_10]; this includes
    the case where a slot is free and [kmalloc] fails, which returns
    [-ENOMEM] and a NULL record pointer. *)
Theorem dfu_prepare_failure_leaks_nothing {H : usbdfu_h} (P : module_params)
    (ok : bool) (dp : option positive) (i : usb_interface) (s : driver)
    (retv : Z) (dp' : option positive) (s' : driver) :
  is_int (dfu_index s) ->
  dfu_prepare P ok dp i s = (retv, dp', s') ->
  retv <> 0 ->
  dfu_index s' = dfu_index s
  /\ kheap s' = kheap s
  /\ intfdata s' = intfdata s
  /\ (valid_fdsc i ->
      dfu_index s' = wrap_int (wrap_int (dfu_index s + 1) - 1)
      /\ (retv = - ENODEV \/ retv = - ENOMEM)
      /\ (wrap_int (dfu_index s + 1) < max_dfus P ->
          ok = false /\ retv = - ENOMEM /\ dp' = None)).
Proof.
  intros Hint Hrun Hfail.
  pose proof (dfu_prepare_counter P ok dp i s Hint) as Hc.
  rewrite Hrun in Hc.
  destruct Hc as [(_ & Hidx & Hheap & Hdata) | (Hzero & _)];
    [| contradiction].
  split; [assumption |]. split; [assumption |]. split; [assumption |].
  intros (fd & Hextra & Hlen & Htyp).
  split; [rewrite Hidx; symmetry; now apply wrap_int_inc_dec |].
  rewrite (dfu_prepare_valid P ok dp i s fd Hextra Hlen Htyp) in Hrun.
  cbn [atomic_inc_return] in Hrun.
  destruct (wrap_int (dfu_index s + 1) >=? max_dfus P) eqn:Hfull.
  - split; [left; congruence | lia].
  - destruct ok; cbn in Hrun; [congruence |].
    split; [right; congruence | intros _; repeat split; congruence].
Qed.

Lemma dfu_prepare_failure_leaks_nothing_witness :
  let s' := atomic_dec (snd (atomic_inc_return fresh_driver)) in
  is_int (dfu_index fresh_driver)
  /\ dfu_prepare (H := dfu_class_header) default_params false None
       intf_A fresh_driver = (- ENOMEM, None, s')
  /\ - ENOMEM <> 0
  /\ dfu_index s' = dfu_index fresh_driver
  /\ kheap s' = kheap fresh_driver
  /\ intfdata s' = intfdata fresh_driver
  /\ (valid_fdsc (H := dfu_class_header) intf_A ->
      dfu_index s' = wrap_int (wrap_int (dfu_index fresh_driver + 1) - 1)
      /\ (- ENOMEM = - ENODEV \/ - ENOMEM = - ENOMEM)
      /\ (wrap_int (dfu_index fresh_driver + 1) < max_dfus default_params ->
          false = false /\ - ENOMEM = - ENOMEM /\ @None positive = None)).
Proof.
  intros s'.
  assert (Hint : is_int (dfu_index fresh_driver))
    by (unfold is_int, INT_MIN, INT_MAX; cbn; lia).
  assert (Hrun : dfu_prepare (H := dfu_class_header) default_params false None
                   intf_A fresh_driver = (- ENOMEM, None, s'))
    by reflexivity.
  assert (Hfail : - ENOMEM <> 0) by (unfold ENOMEM; lia).
  split; [exact Hint |]. split; [exact Hrun |]. split; [exact Hfail |].
  exact (dfu_prepare_failure_leaks_nothing (H := dfu_class_header)
           default_params false None intf_A fresh_driver
           (- ENOMEM) None s' Hint Hrun Hfail).
Defined.

(** C5, as the code has it.  From the empty pool, [N] calls of [dfu_prepare]
    that all succeed leave [N] slots in use; a [dfu_cleanup] takes exactly one
    off; a [dfu_prepare] that finds the pool full returns [-ENODEV] with the
    counter incremented and decremented back, nothing else changed; and on a
    valid descriptor [dfu_prepare] succeeds if and only if a slot is
    available and [kmalloc] serves the device record. *)
Theorem slot_count_accounting {H : usbdfu_h} (P : module_params) :
  max_dfus P <= INT_MAX ->
  (forall devnum0 calls rets s',
      prepare_all P calls (driver_init devnum0) = (rets, s') ->
      Forall (fun r => r = 0) rets ->
      slot_count s' = Z.of_nat (length calls))
  /\ (forall i p s,
      INT_MIN < dfu_index s <= INT_MAX ->
      slot_count (dfu_cleanup i p s) = slot_count s - 1)
  /\ (forall ok dp i s,
      valid_fdsc i -> counter_ok s -> ~ slot_available P s ->
      exists s',
        dfu_prepare P ok dp i s = (- ENODEV, dp, s')
        /\ s' = atomic_dec
                  (dev_err (Maximum_supported_USB_DFU_reached (max_dfus P))
                     (snd (atomic_inc_return s)))
        /\ slot_count s' = slot_count s
        /\ kheap s' = kheap s
        /\ intfdata s' = intfdata s)
  /\ (forall ok dp i s,
      valid_fdsc i -> counter_ok s ->
      (fst (fst (dfu_prepare P ok dp i s)) = 0
       <-> slot_available P s /\ ok = true)).
Proof.
  intros Hmax. split; [| split; [| split]].
  - intros devnum0 calls rets s' Hrun Hall.
    assert (Hok : counter_ok (driver_init devnum0))
      by (unfold counter_ok, INT_MAX; cbn; lia).
    pose proof (prepare_all_slot_count P calls Hmax _ Hok) as Hinv.
    rewrite Hrun in Hinv. destruct Hinv as (_ & Hlen & Hcount).
    rewrite Hcount, (successes_all_zero rets Hall), Hlen.
    unfold slot_count. cbn. lia.
  - intros i p s Hrange. unfold slot_count, dfu_cleanup. cbn.
    rewrite wrap_int_id by (unfold is_int, INT_MIN, INT_MAX in *; lia). lia.
  - intros ok dp i s (fd & Hextra & Hlen & Htyp) Hok Hfull.
    unfold slot_available, slot_count in Hfull.
    pose proof (counter_ok_is_int s Hok) as Hint.
    unfold counter_ok in Hok.
    rewrite (dfu_prepare_valid P ok dp i s fd Hextra Hlen Htyp).
    cbn [atomic_inc_return].
    rewrite (wrap_int_id (dfu_index s + 1))
      by (unfold is_int, INT_MIN, INT_MAX in *; lia).
    destruct (dfu_index s + 1 >=? max_dfus P) eqn:Hge; [| lia].
    eexists. split; [reflexivity |].
    split; [cbn [atomic_inc_return snd];
            rewrite (wrap_int_id (dfu_index s + 1))
              by (unfold is_int, INT_MIN, INT_MAX in *; lia);
            reflexivity |].
    unfold slot_count. cbn.
    replace (dfu_index s + 1 - 1) with (dfu_index s) by lia.
    rewrite (wrap_int_id _ Hint). repeat split.
  - intros ok dp i s (fd & Hextra & Hlen & Htyp) Hok.
    unfold slot_available, slot_count.
    unfold counter_ok in Hok.
    rewrite (dfu_prepare_valid P ok dp i s fd Hextra Hlen Htyp).
    cbn [atomic_inc_return].
    rewrite (wrap_int_id (dfu_index s + 1))
      by (unfold is_int, INT_MIN, INT_MAX in *; lia).
    destruct (dfu_index s + 1 >=? max_dfus P) eqn:Hge.
    + cbn. unfold ENODEV. split; [lia | intros [Hlt _]; lia].
    + destruct ok; cbn.
      * split; [intros _; split; [lia | reflexivity] | reflexivity].
      * unfold ENOMEM. split; [lia | intros [_ Hf]; discriminate].
Qed.

Lemma slot_count_accounting_witness :
  max_dfus default_params <= INT_MAX
  /\ slot_count
       (snd (prepare_all (H := dfu_class_header) default_params
               [(true, intf_A); (true, intf_B); (true, intf_C)]
               fresh_driver)) = 3
  /\ slot_count
       (dfu_cleanup intf_A 1
          (snd (dfu_prepare (H := dfu_class_header) default_params true None
                  intf_A fresh_driver))) = 0
  /\ (exists s',
        dfu_prepare (H := dfu_class_header) default_params true None
          intf_A full_driver = (- ENODEV, None, s')
        /\ s' = atomic_dec
                  (dev_err (Maximum_supported_USB_DFU_reached 8)
                     (snd (atomic_inc_return full_driver)))
        /\ slot_count s' = slot_count full_driver
        /\ kheap s' = kheap full_driver
        /\ intfdata s' = intfdata full_driver)
  /\ (fst (fst (dfu_prepare (H := dfu_class_header) default_params true None
                  intf_A fresh_driver)) = 0
      <-> slot_available default_params fresh_driver /\ true = true).
Proof.
  assert (Hmax : max_dfus default_params <= INT_MAX)
    by (unfold INT_MAX; cbn; lia).
  destruct (slot_count_accounting (H := dfu_class_header) default_params Hmax)
    as (Hprep & Hclean & Hfull & Hiff).
  split; [exact Hmax |]. split; [| split; [| split]];
    [| | apply (Hfull true None intf_A full_driver);
         [exists example_fdsc; repeat split
         | vm_compute; split; [discriminate | reflexivity]
         | vm_compute; discriminate] |].
  - apply (Hprep (MKDEV 240 0) [(true, intf_A); (true, intf_B); (true, intf_C)]
             [0; 0; 0]).
    + reflexivity.
    + repeat constructor.
  - rewrite Hclean; [reflexivity |].
    replace (dfu_index _) with 0 by reflexivity.
    unfold INT_MIN, INT_MAX. lia.
  - apply Hiff.
    + exists example_fdsc. repeat split.
    + unfold counter_ok, INT_MAX. cbn. lia.
Defined.

(** C5 as stated fails where [kmalloc] fails: the descriptor is valid and all
    eight slots are free, yet [dfu_prepare] returns [-ENOMEM]. *)
Lemma prepare_succeeds_iff_slot_counterexample :
  valid_fdsc (H := dfu_class_header) intf_A
  /\ slot_available default_params fresh_driver
  /\ fst (fst (dfu_prepare (H := dfu_class_header) default_params false None
                 intf_A fresh_driver)) = - ENOMEM
  /\ ~ (fst (fst (dfu_prepare (H := dfu_class_header) default_params false
                    None intf_A fresh_driver)) = 0
        <-> slot_available default_params fresh_driver).
Proof.
  assert (Hfree : slot_available default_params fresh_driver)
    by (vm_compute; reflexivity).
  split; [exists example_fdsc; repeat split |].
  split; [exact Hfree |]. split; [reflexivity |].
  intros [_ Hback]. specialize (Hback Hfree). discriminate Hback.
Qed.

(** * Properties of the transfer engine *)

(** The USB core stores received data and nothing else. *)
Lemma store_rx_fields (data : list Z) (c : dfu_control) :
  req (store_rx data c) = req c
  /\ pipe (store_rx data c) = pipe c
  /\ buff (store_rx data c) = buff c
  /\ len (store_rx data c) = len c
  /\ urb (store_rx data c) = urb c
  /\ urbdone (store_rx data c) = urbdone c
  /\ status (store_rx data c) = status c
  /\ nxfer (store_rx data c) = nxfer c.
Proof.
  unfold store_rx. destruct (urb c) as [u |] eqn:Hurb.
  - destruct (transfer_buffer u);
      [| | destruct (firstn (Z.to_nat (transfer_buffer_length u)) data)];
      cbn; rewrite ?Hurb; repeat split.
  - rewrite Hurb. repeat split.
Qed.

Lemma store_rx_req data c : req (store_rx data c) = req c.
Proof. apply store_rx_fields. Qed.
Lemma store_rx_urb data c : urb (store_rx data c) = urb c.
Proof. apply store_rx_fields. Qed.
Lemma store_rx_urbdone data c : urbdone (store_rx data c) = urbdone c.
Proof. apply store_rx_fields. Qed.
Lemma store_rx_status data c : status (store_rx data c) = status c.
Proof. apply store_rx_fields. Qed.
Lemma store_rx_nxfer data c : nxfer (store_rx data c) = nxfer c.
Proof. apply store_rx_fields. Qed.

Arguments store_rx : simpl never.
Arguments dfu_submit_urb : simpl never.

Lemma submitted_app (e1 e2 : list event) :
  submitted (e1 ++ e2) = submitted e1 ++ submitted e2.
Proof.
  induction e1 as [| e rest IH]; [reflexivity |].
  destruct e; cbn; rewrite IH; reflexivity.
Qed.

Ltac io_unfold :=
  unfold dfu_submit_urb, dfu_urb_timeout, usb_alloc_urb, usb_fill_control_urb,
    init_completion, usb_submit_urb, wait_for_completion_timeout,
    usb_unlink_urb, wait_for_completion, usb_giveback, dfu_ctrlurb_done,
    complete, usb_free_urb, dev_err_ctrl, dev_info_ctrl,
    upd_req, upd, rd, emit, ret, block, bind.

(** [cbn] on the goal, with the step left for the virtual machine to check. *)
Ltac cbn_checked_by_vm :=
  match goal with
  | |- ?G =>
      let G' := eval cbn in G in
      tryif constr_eq G G' then idtac
      else (cut G'; [let Hc := fresh in intro Hc; vm_cast_no_check Hc |])
  end.

Ltac io_simpl :=
  repeat progress
    (cbn_checked_by_vm;
     rewrite ?store_rx_req, ?store_rx_urb, ?store_rx_urbdone,
       ?store_rx_status, ?store_rx_nxfer).

(** A test that evaluates is replaced by its value; one that does not is
    split on, comparison by comparison. *)
Ltac io_test b :=
  first [ let v := eval vm_compute in b in
          match v with
          | true => change b with true
          | false => change b with false
          end
        | match b with
          | context [Z.eqb ?x ?y] => destruct (Z.eqb x y) eqn:?
          end
        | destruct b eqn:? ].

(** Run a computation on symbolic input, splitting on each test that does
    not evaluate, innermost first. *)
Ltac io_run :=
  io_unfold; io_simpl;
  repeat (match goal with
          | |- context [if ?b then _ else _] =>
              lazymatch b with
              | context [if _ then _ else _] => fail
              | _ => io_test b
              end
          end; io_simpl).

Section EngineFacts.

Context {H : usbdfu_h}.
Variable P : module_params.
Variable K : usb_core.
Variable dfudev : dfu_device.

(** The engine computes [submit_outcome]. *)
Lemma dfu_submit_urb_outcome (c : dfu_control) :
  dfu_submit_urb P K dfudev c = submit_outcome P K dfudev c.
Proof.
  unfold submit_outcome.
  destruct c as [rq pp bf ln [u |] dn st nx ds dt];
    destruct K as [mj aok sret [] gst gal gdata];
    io_run; first [reflexivity | exfalso; congruence].
Qed.

(** Split an outcome on the kernel's answers; the variant with logs also
    splits on the tests that only decide what is logged. *)
Ltac outcome_cases c :=
  rewrite (dfu_submit_urb_outcome c); unfold submit_outcome;
  destruct (urb c) eqn:?; destruct (alloc_urb_ok K) eqn:?;
  destruct (submit_ret K =? 0) eqn:?; destruct (completes K) eqn:?.

Ltac outcome_cases_with_logs c :=
  outcome_cases c;
  destruct (bRequest (req c) =? USB_DFU_ABORT);
  destruct (giveback_status K =? 0);
  destruct (USB_DFU_ERROR_CODE =? 0).

(** [dfu_submit_urb] reads the request and never writes it. *)
Lemma dfu_submit_urb_keeps_req (c : dfu_control) :
  req (final_ctrl (dfu_submit_urb P K dfudev c)) = req c.
Proof.
  outcome_cases c; cbn; rewrite ?store_rx_req; reflexivity.
Qed.

(** Whatever happens, the setup packet handed to [usb_submit_urb] is the
    request of the container as the caller left it. *)
Lemma dfu_submit_urb_submitted (c : dfu_control) :
  Forall (fun sp => sp = Some (req c))
    (submitted (events (dfu_submit_urb P K dfudev c))).
Proof.
  outcome_cases_with_logs c; cbn; repeat constructor.
Qed.

(** With a urb at hand there is one submission, whatever comes of it. *)
Lemma dfu_submit_urb_submits_once (c : dfu_control) :
  urb_at_hand K c ->
  length (submitted (events (dfu_submit_urb P K dfudev c))) = 1%nat.
Proof.
  unfold urb_at_hand. intros Hurb.
  outcome_cases_with_logs c; cbn; try reflexivity;
    exfalso; specialize (Hurb eq_refl); congruence.
Qed.

(** A urb that is accepted and completed makes [dfu_submit_urb] return the
    status the completion handler stored. *)
Lemma dfu_submit_urb_returns_status (c : dfu_control) :
  urb_at_hand K c ->
  submit_ret K = 0 ->
  completes K <> never_completes ->
  returned (dfu_submit_urb P K dfudev c) = Some (giveback_status K).
Proof.
  unfold urb_at_hand. intros Hurb Hsub Hfires.
  apply Z.eqb_eq in Hsub.
  outcome_cases c; cbn; try reflexivity; try congruence;
    exfalso; specialize (Hurb eq_refl); congruence.
Qed.

(** A rejected urb makes [dfu_submit_urb] return the sentinel. *)
Lemma dfu_submit_urb_rejected_sentinel (c : dfu_control) :
  urb_at_hand K c ->
  submit_ret K <> 0 ->
  returned (dfu_submit_urb P K dfudev c) = Some USB_DFU_ERROR_CODE.
Proof.
  unfold urb_at_hand. intros Hurb Hrej.
  apply Z.eqb_neq in Hrej.
  outcome_cases c; cbn; try reflexivity; try congruence;
    exfalso; specialize (Hurb eq_refl); congruence.
Qed.

(** On a one-byte transfer into the state byte of the container, the first
    byte the device sends is what the container holds afterwards. *)
Lemma dfu_submit_urb_state_byte (c : dfu_control) (b : Z) (rest : list Z) :
  urb c = None -> buff c = buff_dfuState -> len c = 1 ->
  alloc_urb_ok K = true ->
  submit_ret K = 0 ->
  completes K <> never_completes ->
  giveback_data K = b :: rest ->
  dfuState (final_ctrl (dfu_submit_urb P K dfudev c)) = b.
Proof.
  intros Hurb Hbuff Hlen Halloc Hsub Hfires Hdata.
  rewrite dfu_submit_urb_outcome. unfold submit_outcome.
  rewrite Hurb, Hbuff, Hlen, Halloc, Hsub, Hdata.
  destruct (completes K); try contradiction; reflexivity.
Qed.

(** Each operation is its assignments followed by [dfu_submit_urb]. *)
Lemma dfu_abort_unfold (c : dfu_control) :
  dfu_abort P K dfudev c = dfu_submit_urb P K dfudev (abort_request dfudev c).
Proof.
  unfold dfu_abort, abort_request, upd_req, upd, bind. cbn.
  destruct (dfu_submit_urb P K dfudev _); reflexivity.
Qed.

Lemma dfu_do_switch_unfold (c : dfu_control) :
  dfu_do_switch P K dfudev c =
  match dfu_submit_urb P K dfudev (switch_request P dfudev c) with
  | Done retusb c2 evs =>
      Done retusb c2
        (evs ++ if (retusb =? 0) && (Z.land (attr dfudev) 0x08 =? 0)
                then [Ev_dev_info Need_reset_to_switch_to_DFU] else [])
  | Blocked c2 evs => Blocked c2 evs
  end.
Proof.
  unfold dfu_do_switch, switch_request, upd_req, upd, bind, ret,
    dev_info_ctrl, emit.
  cbn.
  destruct (dfu_submit_urb P K dfudev _) as [retusb c2 evs | c2 evs];
    [| reflexivity].
  destruct ((retusb =? 0) && (Z.land (attr dfudev) 8 =? 0)); reflexivity.
Qed.

Lemma dfu_get_state_unfold (c : dfu_control) :
  dfu_get_state P K dfudev c =
  match dfu_submit_urb P K dfudev (get_state_request dfudev c) with
  | Done retv c2 evs => Done (if retv =? 0 then dfuState c2 else retv) c2 evs
  | Blocked c2 evs => Blocked c2 evs
  end.
Proof.
  unfold dfu_get_state, get_state_request, upd_req, upd, bind, ret, rd.
  cbn.
  destruct (dfu_submit_urb P K dfudev _) as [retv c2 evs | c2 evs];
    [| reflexivity].
  destruct (retv =? 0); cbn; rewrite app_nil_r; reflexivity.
Qed.

(** [dfu_abort] leaves [wIndex] as it finds it, in the container and in what
    it submits. *)
Lemma dfu_abort_keeps_wIndex (c : dfu_control) :
  let r := dfu_abort P K dfudev c in
  wIndex (req (final_ctrl r)) = wIndex (req c)
  /\ Forall (fun sp => option_map wIndex sp = Some (wIndex (req c)))
       (submitted (events r)).
Proof.
  intros r. unfold r. rewrite dfu_abort_unfold.
  set (c1 := abort_request dfudev c).
  assert (Hsame : wIndex (req c1) = wIndex (req c)) by reflexivity.
  split.
  - now rewrite dfu_submit_urb_keeps_req.
  - eapply Forall_impl; [apply dfu_submit_urb_submitted |].
    intros sp ->. cbn [option_map]. now rewrite Hsame.
Qed.

Lemma min_as_in_source (a b : Z) : (if a >? b then b else a) = Z.min a b.
Proof. destruct (Z.gtb_spec a b); lia. Qed.

Lemma le16_roundtrip (x : Z) :
  0 <= x < 65536 -> le16_to_cpu (cpu_to_le16 x) = x.
Proof.
  intros Hx. unfold le16_to_cpu, cpu_to_le16. cbn.
  rewrite (Z.mod_small (x / 256)) by
    (split; [apply Z.div_pos; lia | apply Z.div_lt_upper_bound; lia]).
  pose proof (Z.div_mod x 256). lia.
Qed.

(** ** The claims on the transfer engine and the operations *)

(** C9: when the USB core accepts the urb and the completion handler runs
    within the bounded wait, [dfu_submit_urb] returns the status the handler
    stored, the container holds that status and the handler's byte count,
    and nothing was cancelled. *)
Theorem dfu_submit_urb_completed_in_time (c : dfu_control) :
  urb_at_hand K c ->
  submit_ret K = 0 ->
  completes K = before_timeout ->
  let r := dfu_submit_urb P K dfudev c in
  returned r = Some (giveback_status K)
  /\ status (final_ctrl r) = giveback_status K
  /\ nxfer (final_ctrl r) = giveback_actual_length K
  /\ count_events is_completion (events r) = 1%nat
  /\ count_events is_unlink (events r) = 0%nat.
Proof.
  unfold urb_at_hand. intros Hurb Hsub Htime. cbv zeta.
  rewrite dfu_submit_urb_outcome. unfold submit_outcome.
  rewrite Hsub, Htime. cbn [Z.eqb].
  destruct (bRequest (req c) =? USB_DFU_ABORT);
    destruct (giveback_status K =? 0);
    destruct (urb c) as [u |]; try rewrite (Hurb eq_refl);
    cbn; repeat split.
Qed.

(** C2: when the USB core accepts the urb and the bounded wait runs out,
    [dfu_submit_urb] has waited with a timeout exactly once, calls
    [usb_unlink_urb] exactly once and waits with a timeout no more after
    that; the urb unlinked is the one submitted.  If it returns, the
    unbounded [wait_for_completion] on the container's completion came back
    behind the unlink, the completion handler ran before that wait came back,
    exactly once, and the value returned is the status the handler stored.
    If the handler never runs, the call never returns: it stays blocked
    behind the unlink. *)
Theorem dfu_submit_urb_timeout_cancels_once (c : dfu_control) :
  urb_at_hand K c ->
  submit_ret K = 0 ->
  completes K <> before_timeout ->
  let r := dfu_submit_urb P K dfudev c in
  let evs := events r in
  let jiff_wait := msecs_to_jiffies K (urb_timeout P) in
  In (Ev_wait_for_completion_timeout jiff_wait 0) (events_before is_unlink evs)
  /\ count_events is_timed_wait evs = 1%nat
  /\ count_events is_unlink evs = 1%nat
  /\ count_events is_timed_wait (events_after is_unlink evs) = 0%nat
  /\ match r with
     | Done retv _ _ =>
         completes K <> never_completes
         /\ retv = giveback_status K
         /\ exists u e1 e2 e3,
              evs = e1 ++ Ev_usb_unlink_urb (Some u) :: e2
                       ++ Ev_wait_for_completion :: e3
              /\ In (Ev_usb_submit_urb (Some u) 0) e1
              /\ count_events is_completion (e1 ++ e2) = 1%nat
              /\ count_events is_completion e3 = 0%nat
              /\ count_events is_untimed_wait (e1 ++ e2 ++ e3) = 0%nat
     | Blocked _ _ =>
         completes K = never_completes
         /\ count_events is_completion evs = 0%nat
         /\ events_after is_unlink evs = []
     end
  /\ (completes K <> never_completes ->
      returned r = Some (giveback_status K)).
Proof.
  unfold urb_at_hand. intros Hurb Hsub Hlate. cbv zeta.
  rewrite dfu_submit_urb_outcome. unfold submit_outcome.
  rewrite Hsub. cbn [Z.eqb].
  destruct (completes K); try contradiction;
    destruct (bRequest (req c) =? USB_DFU_ABORT);
    destruct (giveback_status K =? 0);
    destruct (urb c) as [u |]; try rewrite (Hurb eq_refl);
    cbn;
    (split; [auto 10 |]); do 3 (split; [reflexivity |]);
    (split; [| first [reflexivity | intros Hn; contradiction]]);
    try (split; [reflexivity |]; split; reflexivity);
    (split; [discriminate |]); (split; [reflexivity |]);
    eexists;
    match goal with
    | |- exists e1 e2 e3, ?l = _ /\ _ =>
        exists (events_before is_unlink l),
               (events_before is_untimed_wait (events_after is_unlink l)),
               (events_after is_untimed_wait (events_after is_unlink l))
    end;
    (split; [cbn; reflexivity | cbn; repeat split; auto 10]).
Qed.

(** C3, as the code has it: when the USB core rejects the urb,
    [dfu_submit_urb] waits for nothing and cancels nothing, no completion
    handler runs, the rejection code goes into the log, and what is returned
    is the sentinel [USB_DFU_ERROR_CODE] stored in the container ahead of the
    submission. *)
Theorem dfu_submit_urb_rejected (c : dfu_control) :
  urb_at_hand K c ->
  submit_ret K <> 0 ->
  let r := dfu_submit_urb P K dfudev c in
  returned r = Some USB_DFU_ERROR_CODE
  /\ status (final_ctrl r) = USB_DFU_ERROR_CODE
  /\ count_events is_timed_wait (events r) = 0%nat
  /\ count_events is_untimed_wait (events r) = 0%nat
  /\ count_events is_unlink (events r) = 0%nat
  /\ count_events is_completion (events r) = 0%nat
  /\ In (Ev_dev_err (URB_submit_failed (bRequestType (req c))
                       (bRequest (req c)) (submit_ret K)))
        (events r).
Proof.
  unfold urb_at_hand. intros Hurb Hrej. cbv zeta.
  apply Z.eqb_neq in Hrej.
  rewrite dfu_submit_urb_outcome. unfold submit_outcome.
  rewrite Hrej.
  destruct (bRequest (req c) =? USB_DFU_ABORT);
    destruct (USB_DFU_ERROR_CODE =? 0);
    destruct (urb c) as [u |]; try rewrite (Hurb eq_refl);
    cbn; repeat split; auto 10.
Qed.

(** C7: the request [dfu_do_switch] leaves in the container, and every setup
    packet it hands to [usb_submit_urb], carries in [wValue] the smaller of
    the device's detach timeout and the configured [detach_timeout], stored
    as a little-endian 16-bit value; with a urb to be had the request is
    submitted once.  Where that minimum fits in 16 bits unsigned, reading the
    field back gives the minimum itself. *)
Theorem dfu_do_switch_wValue (c : dfu_control) :
  let r := dfu_do_switch P K dfudev c in
  let tmout := Z.min (dettmout dfudev) (detach_timeout P) in
  wValue (req (final_ctrl r)) = cpu_to_le16 tmout
  /\ Forall (fun sp => option_map wValue sp = Some (cpu_to_le16 tmout))
       (submitted (events r))
  /\ (alloc_urb_ok K = true -> length (submitted (events r)) = 1%nat)
  /\ (0 <= tmout < 65536 ->
      le16_to_cpu (wValue (req (final_ctrl r))) = tmout).
Proof.
  intros r tmout.
  set (c1 := switch_request P dfudev c).
  assert (Hreq : wValue (req c1) = cpu_to_le16 tmout).
  { unfold c1, switch_request, tmout. cbn. now rewrite min_as_in_source. }
  pose proof (dfu_submit_urb_keeps_req c1) as Hkeep.
  pose proof (dfu_submit_urb_submitted c1) as Hsub.
  pose proof (dfu_submit_urb_submits_once c1) as Honce.
  assert (Hfinal : req (final_ctrl r) = req c1
                   /\ submitted (events r)
                      = submitted (events (dfu_submit_urb P K dfudev c1))).
  { unfold r. rewrite dfu_do_switch_unfold. fold c1.
    destruct (dfu_submit_urb P K dfudev c1) as [retusb c2 evs | c2 evs];
      cbn in *; [| split; [assumption | reflexivity]].
    split; [assumption |].
    rewrite submitted_app.
    destruct ((retusb =? 0) && (Z.land (attr dfudev) 8 =? 0));
      cbn; apply app_nil_r. }
  destruct Hfinal as [Hr Hev]. rewrite Hr, Hev, Hreq.
  split; [reflexivity |]. split; [| split].
  - eapply Forall_impl; [exact Hsub |].
    intros sp ->. cbn [option_map]. now rewrite Hreq.
  - intros Halloc. apply Honce. intros _. exact Halloc.
  - intros Hfit. now apply le16_roundtrip.
Qed.

(** C8: [dfu_get_state] returns what [dfu_submit_urb] returned on the
    GETSTATE request whenever that is not 0, and the state byte of the
    container when it is 0.  So a transfer that completes with status 0 and
    delivers the byte [b] makes it return [b], and one that completes with
    another status makes it return that status. *)
Theorem dfu_get_state_result (c : dfu_control) :
  let c1 := get_state_request dfudev c in
  (forall retv c2 evs,
      dfu_submit_urb P K dfudev c1 = Done retv c2 evs ->
      dfu_get_state P K dfudev c
      = Done (if retv =? 0 then dfuState c2 else retv) c2 evs)
  /\ (forall b rest,
      alloc_urb_ok K = true -> submit_ret K = 0 ->
      completes K <> never_completes ->
      giveback_status K = 0 -> giveback_data K = b :: rest ->
      returned (dfu_get_state P K dfudev c) = Some b)
  /\ (alloc_urb_ok K = true -> submit_ret K = 0 ->
      completes K <> never_completes ->
      giveback_status K <> 0 ->
      returned (dfu_get_state P K dfudev c) = Some (giveback_status K)).
Proof.
  intros c1.
  assert (Hhand : alloc_urb_ok K = true -> urb_at_hand K c1)
    by (intros Halloc _; exact Halloc).
  split; [| split].
  - intros retv c2 evs Hrun.
    rewrite dfu_get_state_unfold. fold c1. now rewrite Hrun.
  - intros b rest Halloc Hsub Hfires Hst Hdata.
    pose proof (dfu_submit_urb_returns_status c1 (Hhand Halloc) Hsub Hfires)
      as Hret.
    pose proof (dfu_submit_urb_state_byte c1 b rest eq_refl eq_refl eq_refl
                  Halloc Hsub Hfires Hdata) as Hbyte.
    rewrite dfu_get_state_unfold. fold c1.
    destruct (dfu_submit_urb P K dfudev c1) as [retv c2 evs | c2 evs];
      cbn in Hret, Hbyte |- *; [| discriminate].
    injection Hret as ->. rewrite Hst. cbn. now rewrite Hbyte.
  - intros Halloc Hsub Hfires Hst.
    pose proof (dfu_submit_urb_returns_status c1 (Hhand Halloc) Hsub Hfires)
      as Hret.
    rewrite dfu_get_state_unfold. fold c1.
    destruct (dfu_submit_urb P K dfudev c1) as [retv c2 evs | c2 evs];
      cbn in Hret |- *; [| discriminate].
    injection Hret as ->. apply Z.eqb_neq in Hst. now rewrite Hst.
Qed.

End EngineFacts.

(** ** The claims evaluated on concrete input *)

Lemma dfu_submit_urb_completed_in_time_witness :
  let K := kernel 0 before_timeout 0 [2] in
  let r := dfu_submit_urb (H := dfu_class_header) default_params K
             example_dfudev stale_ctrl in
  urb_at_hand K stale_ctrl
  /\ submit_ret K = 0
  /\ completes K = before_timeout
  /\ returned r = Some (giveback_status K)
  /\ status (final_ctrl r) = giveback_status K
  /\ nxfer (final_ctrl r) = giveback_actual_length K
  /\ count_events is_completion (events r) = 1%nat
  /\ count_events is_unlink (events r) = 0%nat.
Proof.
  intros K r.
  assert (Hhand : urb_at_hand K stale_ctrl) by (intros _; reflexivity).
  assert (Hsub : submit_ret K = 0) by reflexivity.
  assert (Htime : completes K = before_timeout) by reflexivity.
  split; [exact Hhand |]. split; [exact Hsub |]. split; [exact Htime |].
  exact (dfu_submit_urb_completed_in_time (H := dfu_class_header)
           default_params K example_dfudev stale_ctrl Hhand Hsub Htime).
Defined.

Lemma dfu_submit_urb_timeout_cancels_once_witness :
  let K := kernel 0 after_unlink (-104) [] in
  let r := dfu_submit_urb (H := dfu_class_header) default_params K
             example_dfudev stale_ctrl in
  urb_at_hand K stale_ctrl
  /\ submit_ret K = 0
  /\ completes K <> before_timeout
  /\ returned r = Some (-104)
  /\ count_events is_unlink (events r) = 1%nat
  /\ count_events is_timed_wait (events_after is_unlink (events r)) = 0%nat.
Proof.
  intros K r.
  assert (Hhand : urb_at_hand K stale_ctrl) by (intros _; reflexivity).
  assert (Hsub : submit_ret K = 0) by reflexivity.
  assert (Hlate : completes K <> before_timeout) by discriminate.
  split; [exact Hhand |]. split; [exact Hsub |]. split; [exact Hlate |].
  destruct (dfu_submit_urb_timeout_cancels_once (H := dfu_class_header)
              default_params K example_dfudev stale_ctrl Hhand Hsub Hlate)
    as (_ & _ & Hone & Hnone & _ & Hret).
  split; [| split; [exact Hone | exact Hnone]].
  apply Hret. discriminate.
Defined.

Lemma dfu_submit_urb_rejected_witness :
  let K := kernel (-19) before_timeout 0 [] in
  let r := dfu_submit_urb (H := dfu_class_header) default_params K
             example_dfudev stale_ctrl in
  urb_at_hand K stale_ctrl
  /\ submit_ret K <> 0
  /\ returned r = Some (USB_DFU_ERROR_CODE (usbdfu_h := dfu_class_header))
  /\ count_events is_timed_wait (events r) = 0%nat
  /\ count_events is_untimed_wait (events r) = 0%nat
  /\ count_events is_unlink (events r) = 0%nat
  /\ In (Ev_dev_err (URB_submit_failed 0xa1 3 (-19))) (events r).
Proof.
  intros K r.
  assert (Hhand : urb_at_hand K stale_ctrl) by (intros _; reflexivity).
  assert (Hrej : submit_ret K <> 0) by discriminate.
  split; [exact Hhand |]. split; [exact Hrej |].
  destruct (dfu_submit_urb_rejected (H := dfu_class_header)
              default_params K example_dfudev stale_ctrl Hhand Hrej)
    as (Hret & _ & Htimed & Hwait & Hunlink & _ & Hlog).
  repeat split; assumption.
Defined.

(** C3 as stated fails whatever number the header gives the sentinel: the
    USB core rejects one urb with -19 and another with -12, and
    [dfu_submit_urb] cannot have returned the rejection code both times,
    since it returns the same value both times. *)
Lemma dfu_submit_urb_rejected_counterexample :
  ~ (exists H : usbdfu_h,
        returned (dfu_submit_urb (H := H) default_params
                    (kernel (-19) before_timeout 0 [])
                    example_dfudev stale_ctrl) = Some (-19)
        /\ returned (dfu_submit_urb (H := H) default_params
                       (kernel (-12) before_timeout 0 [])
                       example_dfudev stale_ctrl) = Some (-12)).
Proof.
  intros (H & H19 & H12).
  rewrite dfu_submit_urb_rejected_sentinel in H19, H12;
    try (intros _; reflexivity); try discriminate.
  congruence.
Qed.

Lemma dfu_do_switch_wValue_witness :
  let K := kernel 0 before_timeout 0 [] in
  let r := dfu_do_switch (H := dfu_class_header) default_params K
             example_dfudev stale_ctrl in
  dettmout example_dfudev = 5000
  /\ detach_timeout default_params = 2000
  /\ wValue (req (final_ctrl r)) = cpu_to_le16 2000
  /\ Forall (fun sp => option_map wValue sp = Some (cpu_to_le16 2000))
       (submitted (events r))
  /\ length (submitted (events r)) = 1%nat
  /\ le16_to_cpu (wValue (req (final_ctrl r))) = 2000.
Proof.
  intros K r.
  destruct (dfu_do_switch_wValue (H := dfu_class_header) default_params K
              example_dfudev stale_ctrl)
    as (Hfield & Hsent & Honce & Hback).
  split; [reflexivity |]. split; [reflexivity |].
  split; [exact Hfield |]. split; [exact Hsent |].
  split; [apply Honce; reflexivity |].
  apply Hback. cbn. lia.
Defined.

Lemma dfu_get_state_result_witness :
  let K := kernel 0 before_timeout 0 [2] in
  alloc_urb_ok K = true
  /\ submit_ret K = 0
  /\ completes K <> never_completes
  /\ giveback_status K = 0
  /\ giveback_data K = [2]
  /\ returned (dfu_get_state (H := dfu_class_header) default_params K
                 example_dfudev stale_ctrl) = Some 2.
Proof.
  intros K.
  assert (Hfires : completes K <> never_completes) by discriminate.
  destruct (dfu_get_state_result (H := dfu_class_header) default_params K
              example_dfudev stale_ctrl) as (_ & Hbyte & _).
  repeat (split; [first [reflexivity | exact Hfires] |]).
  exact (Hbyte 2 [] eq_refl eq_refl Hfires eq_refl eq_refl).
Defined.

(** C4, evaluated where the code departs from it: [dfu_abort] is called for a
    device on interface 0 with a container whose request last went to
    interface 3.  It never assigns [wIndex], so the setup packet it submits
    still names interface 3, where [dfu_clr_status] on the same input names
    the interface of the device.  On every input, what [dfu_abort] submits
    carries the [wIndex] the container came with. *)
Theorem dfu_abort_submits_stale_wIndex :
  (let K := kernel 0 before_timeout 0 [] in
   let aborted := dfu_abort (H := dfu_class_header) default_params K
                    example_dfudev stale_ctrl in
   let cleared := dfu_clr_status (H := dfu_class_header) default_params K
                    example_dfudev stale_ctrl in
   intfnum example_dfudev = 0
   /\ wIndex (req stale_ctrl) = cpu_to_le16 3
   /\ map (option_map setup_bytes) (submitted (events aborted))
      = [Some [0x21; 6; 0; 0; 3; 0; 0; 0]]
   /\ wIndex (req (final_ctrl aborted)) = cpu_to_le16 3
   /\ map (option_map setup_bytes) (submitted (events cleared))
      = [Some [0x21; 4; 0; 0; 0; 0; 0; 0]]
   /\ returned aborted = Some 0)
  /\ (forall (H : usbdfu_h) P K dfudev c,
        let r := dfu_abort P K dfudev c in
        wIndex (req (final_ctrl r)) = wIndex (req c)
        /\ Forall (fun sp => option_map wIndex sp = Some (wIndex (req c)))
             (submitted (events r))).
Proof.
  split.
  - repeat split; vm_compute; reflexivity.
  - intros H P K dfudev c. apply dfu_abort_keeps_wIndex.
Qed.

(** * Further properties of the device-record lifecycle *)

Lemma kmalloc_fresh (s : driver) (p : positive) :
  kmalloc true s = Some p -> kheap s !! p = None.
Proof.
  unfold kmalloc. intros [= <-].
  apply not_elem_of_dom. apply is_fresh.
Qed.

Section LifecycleMore.

Context {H : usbdfu_h}.
Variable P : module_params.

(** What a successful [dfu_prepare] has done. *)
Lemma dfu_prepare_success ok dp i s p s' :
  counter_ok s ->
  dfu_prepare P ok dp i s = (0, Some p, s') ->
  exists fd d,
    extra i = Some fd
    /\ ok = true
    /\ kheap s !! p = None
    /\ d = {| index := dfu_index s + 1;
              attr := fd_attr fd;
              dettmout := le16_to_cpu (tmout fd);
              xfersize := le16_to_cpu (fd_xfersize fd);
              intf := intf_ptr i;
              usbdev := interface_to_usbdev i;
              intfnum := bInterfaceNumber i;
              devnum := MKDEV (MAJOR (dfu_devnum s)) (dfu_index s + 1);
              dma := if dma_mask (interface_to_usbdev i) then 1 else 0 |}
    /\ dfu_index s + 1 < max_dfus P
    /\ s' = {| dfu_index := dfu_index s + 1;
               dfu_devnum := dfu_devnum s;
               kheap := <[p := d]> (kheap s);
               intfdata := <[intf_ptr i := p]> (intfdata s);
               klog := klog s |}.
Proof.
  intros Hok Hrun.
  pose proof (counter_ok_is_int s Hok) as Hint.
  unfold counter_ok in Hok.
  unfold dfu_prepare in Hrun.
  destruct (extra i) as [fd |]; [| discriminate].
  destruct (negb _ || negb _); [discriminate |].
  cbn [atomic_inc_return] in Hrun.
  rewrite (wrap_int_id (dfu_index s + 1)) in Hrun
    by (unfold is_int, INT_MIN, INT_MAX in *; lia).
  destruct (dfu_index s + 1 >=? max_dfus P) eqn:Hfull; [discriminate |].
  destruct ok; cbn in Hrun; [| discriminate].
  injection Hrun as <- <-.
  eexists fd, _. repeat split; try reflexivity.
  - apply (kmalloc_fresh (set_dfu_index (dfu_index s + 1) s)). reflexivity.
  - lia.
Qed.

(** X1: on a valid descriptor with a slot free and memory to be had,
    [dfu_prepare] returns 0 and a record at an address not in use before;
    the record is what [usb_get_intfdata] returns for the interface from
    then on; its index is the number of slots that were in use, which lies
    in [0, max_dfus); its attribute byte, detach timeout and transfer size
    are those of the descriptor, the 16-bit fields read low byte first; and
    one slot more is in use. *)
Theorem dfu_prepare_attaches (dp : option positive) (i : usb_interface)
    (s : driver) :
  valid_fdsc i -> counter_ok s -> slot_available P s ->
  exists p d s' fd,
    dfu_prepare P true dp i s = (0, Some p, s')
    /\ kheap s !! p = None
    /\ usb_get_intfdata i s' = Some p
    /\ live s' p d
    /\ index d = slot_count s
    /\ 0 <= index d < max_dfus P
    /\ extra i = Some fd
    /\ attr d = fd_attr fd
    /\ dettmout d = lo_byte (tmout fd) + 256 * hi_byte (tmout fd)
    /\ xfersize d = lo_byte (fd_xfersize fd) + 256 * hi_byte (fd_xfersize fd)
    /\ intfnum d = bInterfaceNumber i
    /\ intf d = intf_ptr i
    /\ slot_count s' = slot_count s + 1.
Proof.
  intros (fd & Hextra & Hlen & Htyp) Hok Hfree.
  pose proof (counter_ok_is_int s Hok) as Hint.
  unfold slot_available, slot_count in Hfree.
  destruct (dfu_prepare P true dp i s) as [[retv dp'] s'] eqn:Hrun.
  assert (Hshape := Hrun).
  rewrite (dfu_prepare_valid P true dp i s fd Hextra Hlen Htyp) in Hshape.
  cbn [atomic_inc_return] in Hshape.
  unfold counter_ok in Hok.
  rewrite (wrap_int_id (dfu_index s + 1)) in Hshape
    by (unfold is_int, INT_MIN, INT_MAX in *; lia).
  destruct (dfu_index s + 1 >=? max_dfus P) eqn:Hfull; [lia |].
  cbn in Hshape. injection Hshape as <- <- <-.
  eexists _, _, _, fd. split; [reflexivity |].
  split; [apply (kmalloc_fresh (set_dfu_index (dfu_index s + 1) s));
          reflexivity |].
  split; [unfold usb_get_intfdata; cbn; apply lookup_insert_eq |].
  split; [unfold live; cbn; apply lookup_insert_eq |].
  unfold slot_count. cbn.
  repeat split; try reflexivity; try assumption; lia.
Qed.

(** X2: [dfu_prepare], whatever it returns, leaves every record that was
    live as it was and touches the driver data of no other interface;
    [dfu_cleanup] leaves every other record and the driver data of every
    other interface as they were. *)
Theorem lifecycle_leaves_others_alone (ok : bool) (dp : option positive)
    (i : usb_interface) (s : driver) :
  (forall q d, live s q d -> live (snd (dfu_prepare P ok dp i s)) q d)
  /\ (forall j, j <> intf_ptr i ->
       intfdata (snd (dfu_prepare P ok dp i s)) !! j = intfdata s !! j)
  /\ (forall p q, q <> p ->
       kheap (dfu_cleanup i p s) !! q = kheap s !! q)
  /\ (forall p j, j <> intf_ptr i ->
       intfdata (dfu_cleanup i p s) !! j = intfdata s !! j).
Proof.
  assert (Hprep :
    kheap (snd (dfu_prepare P ok dp i s)) = kheap s
    /\ intfdata (snd (dfu_prepare P ok dp i s)) = intfdata s
    \/ exists p d,
         kheap s !! p = None
         /\ kheap (snd (dfu_prepare P ok dp i s)) = <[p := d]> (kheap s)
         /\ intfdata (snd (dfu_prepare P ok dp i s))
            = <[intf_ptr i := p]> (intfdata s)).
  { unfold dfu_prepare.
    destruct (extra i) as [fd |]; [| left; split; reflexivity].
    destruct (negb _ || negb _); [left; split; reflexivity |].
    cbn [atomic_inc_return].
    destruct (_ >=? _); [left; split; reflexivity |].
    destruct ok; cbn; [| left; split; reflexivity].
    right. eexists _, _. split; [| split; reflexivity].
    apply (kmalloc_fresh (set_dfu_index (wrap_int (dfu_index s + 1)) s)).
    reflexivity. }
  split; [| split; [| split]].
  - intros q d Hlive. unfold live in *.
    destruct Hprep as [[-> _] | (p & d' & Hfresh & -> & _)]; [assumption |].
    rewrite lookup_insert_ne; [assumption | congruence].
  - intros j Hj.
    destruct Hprep as [[_ ->] | (p & d' & _ & _ & ->)]; [reflexivity |].
    now rewrite lookup_insert_ne.
  - intros p q Hq. unfold dfu_cleanup. cbn. now rewrite lookup_delete_ne.
  - intros p j Hj. unfold dfu_cleanup. cbn. now rewrite lookup_delete_ne.
Qed.

(** X3: a [dfu_cleanup] right after the successful [dfu_prepare] of an
    interface that had no driver data puts the driver back exactly where it
    was: counter, records, driver data and log. *)
Theorem dfu_prepare_cleanup_roundtrip (ok : bool) (dp : option positive)
    (i : usb_interface) (s : driver) (p : positive) (s1 : driver) :
  counter_ok s ->
  usb_get_intfdata i s = None ->
  dfu_prepare P ok dp i s = (0, Some p, s1) ->
  dfu_cleanup i p s1 = s.
Proof.
  intros Hok Hnone Hrun.
  pose proof (counter_ok_is_int s Hok) as Hint.
  destruct (dfu_prepare_success ok dp i s p s1 Hok Hrun)
    as (fd & d & _ & _ & Hfresh & _ & _ & ->).
  unfold usb_get_intfdata in Hnone.
  unfold dfu_cleanup, atomic_dec, kfree, usb_set_intfdata, set_dfu_index.
  cbn.
  replace (dfu_index s + 1 - 1) with (dfu_index s) by lia.
  rewrite (wrap_int_id _ Hint).
  rewrite (delete_insert_id _ _ _ Hfresh), (delete_insert_id _ _ _ Hnone).
  destruct s; reflexivity.
Qed.

(** The records of a driver that was never used are stacked, and each step
    of a run that detaches newest first keeps them so. *)
Lemma stacked_init (devnum0 : Z) : stacked (driver_init devnum0).
Proof.
  split; [unfold counter_ok, INT_MAX; cbn; lia |].
  split; [intros p d Hp | intros p q d e _ Hp];
    cbn in Hp; rewrite lookup_empty in Hp; discriminate.
Qed.

Lemma stacked_prepare ok dp i s :
  max_dfus P <= INT_MAX ->
  stacked s -> stacked (snd (dfu_prepare P ok dp i s)).
Proof.
  intros Hmax (Hok & Hrange & Hdist).
  destruct (dfu_prepare P ok dp i s) as [[retv dp'] s'] eqn:Hrun.
  cbn [snd].
  destruct (Z.eq_dec retv 0) as [-> | Hfail].
  - assert (exists p, dp' = Some p) as [p ->].
    { unfold dfu_prepare in Hrun.
      destruct (extra i); [| discriminate].
      destruct (negb _ || negb _); [discriminate |].
      cbn [atomic_inc_return] in Hrun.
      destruct (_ >=? _); [discriminate |].
      destruct ok; cbn in Hrun; [| discriminate].
      injection Hrun as <- _. eauto. }
    destruct (dfu_prepare_success ok dp i s p s' Hok Hrun)
      as (fd & d & _ & _ & Hfresh & Hd & Hlt & ->).
    unfold counter_ok in Hok.
    split; [unfold counter_ok; cbn; lia |].
    split.
    + intros q e Hq. cbn in Hq |- *.
      apply lookup_insert_Some in Hq as [[<- <-] | [Hne Hq]].
      * subst d. cbn. lia.
      * specialize (Hrange q e Hq). lia.
    + intros q r e f Hqr Hq Hr. cbn in Hq, Hr.
      apply lookup_insert_Some in Hq as [[<- <-] | [Hneq Hq]];
        apply lookup_insert_Some in Hr as [[<- <-] | [Hner Hr]].
      * congruence.
      * subst d. cbn. specialize (Hrange r f Hr). lia.
      * subst d. cbn. specialize (Hrange q e Hq). lia.
      * exact (Hdist q r e f Hqr Hq Hr).
  - pose proof (dfu_prepare_counter P ok dp i s (counter_ok_is_int s Hok))
      as Hc.
    rewrite Hrun in Hc.
    destruct Hc as [(_ & Hidx & Hheap & _) | (Hzero & _)]; [| contradiction].
    split; [unfold counter_ok in *; now rewrite Hidx |].
    split.
    + intros q e Hq. rewrite Hheap in Hq. rewrite Hidx.
      exact (Hrange q e Hq).
    + intros q r e f Hqr Hq Hr. rewrite Hheap in Hq, Hr.
      exact (Hdist q r e f Hqr Hq Hr).
Qed.

Lemma stacked_cleanup_newest i s :
  stacked s -> detaches_newest i s ->
  stacked (lifecycle_step P (detach i) s).
Proof.
  intros (Hok & Hrange & Hdist) (p & d & Hdata & Hp & Htop).
  cbn [lifecycle_step]. rewrite Hdata.
  pose proof (Hrange p d Hp) as Hd.
  unfold counter_ok in Hok.
  assert (Hdec : dfu_index (dfu_cleanup i p s) = dfu_index s - 1).
  { unfold dfu_cleanup. cbn.
    apply wrap_int_id. unfold is_int, INT_MIN, INT_MAX in *. lia. }
  split; [unfold counter_ok; rewrite Hdec; lia |].
  split.
  - intros q e Hq. rewrite Hdec.
    unfold dfu_cleanup in Hq. cbn in Hq.
    apply lookup_delete_Some in Hq as [Hne Hq].
    pose proof (Hrange q e Hq).
    pose proof (Hdist p q d e Hne Hp Hq). lia.
  - intros q r e f Hqr Hq Hr.
    unfold dfu_cleanup in Hq, Hr. cbn in Hq, Hr.
    apply lookup_delete_Some in Hq as [_ Hq].
    apply lookup_delete_Some in Hr as [_ Hr].
    exact (Hdist q r e f Hqr Hq Hr).
Qed.

Lemma stacked_run es :
  max_dfus P <= INT_MAX ->
  forall s, stacked s -> last_in_first_out P es s ->
  stacked (lifecycle_run P es s).
Proof.
  intros Hmax. induction es as [| e rest IH]; intros s Hs Hlifo.
  - exact Hs.
  - destruct Hlifo as [Hstep Hrest].
    change (lifecycle_run P (e :: rest) s)
      with (lifecycle_run P rest (lifecycle_step P e s)).
    apply IH; [| exact Hrest].
    destruct e as [ok i | i].
    + apply stacked_prepare; assumption.
    + apply stacked_cleanup_newest; assumption.
Qed.

(** X4: starting from a driver never used, and as long as every detach
    takes the interface attached last among those still attached, two live
    records never hold the same index, and every live index is at least 0
    and less than the number of slots in use. *)
Theorem indices_distinct_when_detached_newest_first (devnum0 : Z)
    (es : list lifecycle_event) :
  max_dfus P <= INT_MAX ->
  last_in_first_out P es (driver_init devnum0) ->
  let s := lifecycle_run P es (driver_init devnum0) in
  indices_distinct s
  /\ (forall p d, live s p d -> 0 <= index d < slot_count s).
Proof.
  intros Hmax Hlifo s.
  destruct (stacked_run es Hmax _ (stacked_init devnum0) Hlifo)
    as (_ & Hrange & Hdist).
  split; [exact Hdist |].
  intros p d Hlive. specialize (Hrange p d Hlive).
  unfold slot_count. fold s in Hrange. lia.
Qed.

Lemma MKDEV_major_minor (ma mi : Z) :
  0 <= ma -> 0 <= mi < 2 ^ MINORBITS ->
  MAJOR (MKDEV ma mi) = ma /\ MINOR (MKDEV ma mi) = mi.
Proof.
  unfold MAJOR, MINOR, MKDEV, MINORMASK, MINORBITS. intros Hma Hmi.
  split.
  - rewrite Z.shiftr_lor, Z.shiftr_shiftl_l by lia.
    replace (20 - 20) with 0 by lia. rewrite Z.shiftl_0_r.
    rewrite (Z.shiftr_div_pow2 mi) by lia.
    rewrite Z.div_small by lia. apply Z.lor_0_r.
  - change (Z.shiftl 1 20 - 1) with (Z.ones 20).
    rewrite Z.land_ones by lia.
    rewrite Z.shiftl_mul_pow2 by lia.
    assert (Hdisjoint : Z.land (ma * 2 ^ 20) mi = 0).
    { apply Z.bits_inj'. intros n Hn. rewrite Z.land_spec, Z.bits_0.
      destruct (Z.lt_ge_cases n 20) as [Hlow | Hhigh].
      - rewrite Z.mul_pow2_bits_low by lia. reflexivity.
      - rewrite (Z.bits_above_log2 mi n); [apply andb_false_r | lia |].
        destruct (Z.eq_dec mi 0) as [-> | Hnz]; [cbn; lia |].
        assert (Z.log2 mi < 20) by (apply Z.log2_lt_pow2; lia).
        lia. }
    rewrite <- Z.lxor_lor, <- Z.add_nocarry_lxor by assumption.
    rewrite Z.add_comm, Z.mod_add by lia.
    apply Z.mod_small. lia.
Qed.

(** X5: the device number [dfu_prepare] gives a record carries the major
    number of the driver's region and the record's index as minor, as long
    as [max_dfus] does not exceed what the minor has room for. *)
Theorem devnum_major_minor (ok : bool) (dp : option positive)
    (i : usb_interface) (s : driver) (p : positive) (s' : driver)
    (d : dfu_device) :
  counter_ok s ->
  0 <= dfu_devnum s ->
  max_dfus P <= 2 ^ MINORBITS ->
  dfu_prepare P ok dp i s = (0, Some p, s') ->
  live s' p d ->
  MAJOR (devnum d) = MAJOR (dfu_devnum s)
  /\ MINOR (devnum d) = index d.
Proof.
  intros Hok Hdev Hmax Hrun Hlive.
  destruct (dfu_prepare_success ok dp i s p s' Hok Hrun)
    as (fd & d' & _ & _ & _ & Hd & Hlt & ->).
  unfold live in Hlive. cbn in Hlive.
  rewrite lookup_insert_eq in Hlive. injection Hlive as <-.
  subst d'. cbn [devnum index].
  unfold counter_ok in Hok.
  apply MKDEV_major_minor; [| lia].
  unfold MAJOR. apply Z.shiftr_nonneg. exact Hdev.
Qed.

End LifecycleMore.

(** * Further properties of the transfer engine and the operations *)

Section EngineMore.

Context {H : usbdfu_h}.
Variable P : module_params.
Variable K : usb_core.
Variable dfudev : dfu_device.

(** What is returned and what happens, though not the container left behind,
    depends on the container only through the request, the pipe, the buffer
    with its length, and the urb. *)
Lemma submit_outcome_same_request (c c' : dfu_control) :
  req c = req c' -> pipe c = pipe c' -> buff c = buff c' ->
  len c = len c' -> urb c = urb c' ->
  returned (submit_outcome P K dfudev c)
  = returned (submit_outcome P K dfudev c')
  /\ events (submit_outcome P K dfudev c)
     = events (submit_outcome P K dfudev c').
Proof.
  intros Hreq Hpipe Hbuff Hlen Hurb. unfold submit_outcome.
  rewrite Hreq, Hpipe, Hbuff, Hlen, Hurb.
  destruct (urb c'); destruct (alloc_urb_ok K);
    destruct (submit_ret K =? 0); destruct (completes K);
    split; reflexivity.
Qed.

(** X6: when a urb is needed and none can be allocated, [dfu_submit_urb]
    returns [-ENOMEM] with the container exactly as it was, its status field
    included; nothing is submitted and nothing waited for. *)
Theorem dfu_submit_urb_no_memory (c : dfu_control) :
  urb c = None ->
  alloc_urb_ok K = false ->
  let r := dfu_submit_urb P K dfudev c in
  returned r = Some (- ENOMEM)
  /\ final_ctrl r = c
  /\ submitted (events r) = []
  /\ count_events is_timed_wait (events r) = 0%nat
  /\ count_events is_untimed_wait (events r) = 0%nat
  /\ In (Ev_dev_err Cannot_allocate_URB) (events r).
Proof.
  intros Hurb Halloc. cbv zeta.
  rewrite dfu_submit_urb_outcome. unfold submit_outcome.
  rewrite Hurb, Halloc. cbn. repeat split. auto.
Qed.

(** X7: a urb the caller brought is neither allocated nor freed and stays
    in the container, filled with the request; a urb [dfu_submit_urb]
    allocated itself is freed once and gone from the container when the call
    returns, and is still in the container, not freed, when the call stays
    blocked on it. *)
Theorem urb_borrowed_or_owned (c : dfu_control) :
  let r := dfu_submit_urb P K dfudev c in
  (urb c <> None ->
   count_events is_alloc (events r) = 0%nat
   /\ count_events is_free (events r) = 0%nat
   /\ exists u, urb (final_ctrl r) = Some u
                /\ setup_packet u = Some (req c))
  /\ (urb c = None -> alloc_urb_ok K = true -> returned r <> None ->
      count_events is_alloc (events r) = 1%nat
      /\ count_events is_free (events r) = 1%nat
      /\ urb (final_ctrl r) = None)
  /\ (urb c = None -> alloc_urb_ok K = true -> returned r = None ->
      count_events is_free (events r) = 0%nat
      /\ urb (final_ctrl r) <> None).
Proof.
  cbv zeta. rewrite dfu_submit_urb_outcome. unfold submit_outcome.
  destruct (urb c) as [u0 |]; destruct (alloc_urb_ok K);
    destruct (submit_ret K =? 0); destruct (completes K);
    destruct (bRequest (req c) =? USB_DFU_ABORT);
    destruct (giveback_status K =? 0);
    destruct (USB_DFU_ERROR_CODE =? 0);
    cbn; rewrite ?store_rx_urb; cbn;
    (split; [intros Hsome | split; intros Hnone Halloc Hret]);
    try congruence; try (exfalso; apply Hret; reflexivity);
    repeat split; try reflexivity; try discriminate; eauto.
Qed.

(** X8: as long as the sentinel is not 0, [dfu_submit_urb] returns 0 only
    for a urb that the USB core accepted and whose completion handler ran,
    once, with status 0; the container then holds status 0 and the byte count
    the handler stored. *)
Theorem zero_only_from_handler (c : dfu_control) :
  USB_DFU_ERROR_CODE <> 0 ->
  let r := dfu_submit_urb P K dfudev c in
  returned r = Some 0 ->
  submit_ret K = 0
  /\ completes K <> never_completes
  /\ giveback_status K = 0
  /\ count_events is_completion (events r) = 1%nat
  /\ status (final_ctrl r) = 0
  /\ nxfer (final_ctrl r) = giveback_actual_length K.
Proof.
  intros Hsentinel. cbv zeta.
  rewrite dfu_submit_urb_outcome. unfold submit_outcome.
  unfold ENOMEM.
  destruct (urb c) as [u0 |]; destruct (alloc_urb_ok K);
    destruct (Z.eqb_spec (submit_ret K) 0) as [Hsub | Hsub];
    destruct (completes K);
    destruct (bRequest (req c) =? USB_DFU_ABORT);
    destruct (giveback_status K =? 0);
    cbn; intros Hret; try discriminate;
    try (injection Hret as Hret); try contradiction;
    rewrite ?Hret; repeat split; try assumption; try discriminate.
Qed.

(** X9: an abort request is never reported as cancelled or failed, whatever
    becomes of it; any other request that comes back with a status other
    than 0 is reported as failed with that status. *)
Theorem abort_is_not_logged_as_failure (c : dfu_control) :
  let r := dfu_submit_urb P K dfudev c in
  let rtype := bRequestType (req c) in
  let rcode := bRequest (req c) in
  (rcode = USB_DFU_ABORT ->
   forall st,
     ~ In (Ev_dev_err (URB_cancelled rtype rcode)) (events r)
     /\ ~ In (Ev_dev_err (URB_request_failed rtype rcode st)) (events r))
  /\ (rcode <> USB_DFU_ABORT -> urb_at_hand K c ->
      forall st, returned r = Some st -> st <> 0 ->
      In (Ev_dev_err (URB_request_failed rtype rcode st)) (events r)).
Proof.
  cbv zeta. rewrite dfu_submit_urb_outcome. unfold submit_outcome, urb_at_hand.
  split.
  - intros Habort st. apply Z.eqb_eq in Habort. rewrite Habort.
    destruct (urb c) as [u0 |]; destruct (alloc_urb_ok K);
      destruct (submit_ret K =? 0); destruct (completes K);
      rewrite ?andb_false_r; cbn;
      split; intros Hin;
      repeat (destruct Hin as [Hin | Hin]; [discriminate Hin |]);
      exact Hin.
  - intros Hother Hurb st.
    apply Z.eqb_neq in Hother. rewrite Hother.
    destruct (urb c) as [u0 |];
      try rewrite (Hurb eq_refl);
      destruct (submit_ret K =? 0); destruct (completes K);
      cbn; intros Hret Hst; try discriminate;
      injection Hret as Hret; apply Z.eqb_neq in Hst;
      rewrite Hret, Hst; cbn; auto 12.
Qed.

(** X10: what [dfu_submit_urb] returns and does is the same for two
    containers that agree on the request, the pipe, the buffer with its
    length and the urb: the status, byte count and completion count left in
    a container by an earlier call have no say. *)
Theorem dfu_submit_urb_ignores_old_results (c c' : dfu_control) :
  req c = req c' -> pipe c = pipe c' -> buff c = buff c' ->
  len c = len c' -> urb c = urb c' ->
  returned (dfu_submit_urb P K dfudev c)
  = returned (dfu_submit_urb P K dfudev c')
  /\ events (dfu_submit_urb P K dfudev c)
     = events (dfu_submit_urb P K dfudev c').
Proof.
  intros. rewrite !dfu_submit_urb_outcome.
  now apply submit_outcome_same_request.
Qed.

Lemma dfu_get_status_unfold (c : dfu_control) :
  dfu_get_status P K dfudev c
  = dfu_submit_urb P K dfudev (get_status_request dfudev c).
Proof.
  unfold dfu_get_status, get_status_request, upd_req, upd, bind, ret. cbn.
  destruct (dfu_submit_urb P K dfudev _); cbn;
    rewrite ?app_nil_r; reflexivity.
Qed.

Lemma dfu_clr_status_unfold (c : dfu_control) :
  dfu_clr_status P K dfudev c
  = dfu_submit_urb P K dfudev (clr_status_request dfudev c).
Proof.
  unfold dfu_clr_status, clr_status_request, upd_req, upd, bind. cbn.
  destruct (dfu_submit_urb P K dfudev _); reflexivity.
Qed.

(** The data buffers of the container after a call, read off the outcome. *)
Lemma dfu_submit_urb_buffers (c : dfu_control) :
  let r := dfu_submit_urb P K dfudev c in
  (buff c = buff_NULL ->
   dfuStatus (final_ctrl r) = dfuStatus c
   /\ dfuState (final_ctrl r) = dfuState c)
  /\ (buff c = buff_dfuStatus ->
      alloc_urb_ok K = true \/ urb c <> None ->
      submit_ret K = 0 -> completes K <> never_completes ->
      let rx := firstn (Z.to_nat (len c)) (giveback_data K) in
      dfuStatus (final_ctrl r) = rx ++ skipn (length rx) (dfuStatus c)
      /\ dfuState (final_ctrl r) = dfuState c).
Proof.
  cbv zeta. rewrite dfu_submit_urb_outcome. unfold submit_outcome.
  split.
  - intros Hbuff. rewrite Hbuff.
    destruct (urb c) as [u0 |]; destruct (alloc_urb_ok K);
      destruct (submit_ret K =? 0); destruct (completes K);
      split; reflexivity.
  - intros Hbuff Hurb Hsub Hfires. rewrite Hbuff, Hsub.
    destruct (urb c) as [u0 |]; destruct (alloc_urb_ok K);
      destruct (completes K); try contradiction;
      try (destruct Hurb; congruence);
      split; reflexivity.
Qed.

(** X11: when the transfer of [dfu_get_status] completes, the bytes the
    device sent, at most six of them, lie at the head of the status block of
    the container, what the block held behind them is still there, a block
    of six bytes is still one of six bytes, and the state byte is as it
    was; the value returned is the status of the transfer. *)
Theorem dfu_get_status_fills_block (c : dfu_control) :
  alloc_urb_ok K = true ->
  submit_ret K = 0 ->
  completes K <> never_completes ->
  let r := dfu_get_status P K dfudev c in
  let rx := firstn 6 (giveback_data K) in
  returned r = Some (giveback_status K)
  /\ dfuStatus (final_ctrl r) = rx ++ skipn (length rx) (dfuStatus c)
  /\ (length (dfuStatus c) = 6%nat ->
      length (dfuStatus (final_ctrl r)) = 6%nat)
  /\ dfuState (final_ctrl r) = dfuState c.
Proof.
  intros Halloc Hsub Hfires. cbv zeta.
  rewrite dfu_get_status_unfold.
  set (c1 := get_status_request dfudev c).
  destruct (dfu_submit_urb_buffers c1) as [_ Hblock].
  destruct (Hblock eq_refl (or_introl Halloc) Hsub Hfires) as [Hst Hbyte].
  change (Z.to_nat (len c1)) with 6%nat in Hst.
  change (dfuStatus c1) with (dfuStatus c) in Hst.
  change (dfuState c1) with (dfuState c) in Hbyte.
  split.
  { apply dfu_submit_urb_returns_status; [| assumption..].
    intros _. exact Halloc. }
  split; [exact Hst |]. split; [| exact Hbyte].
  intros Hsix. rewrite Hst.
  rewrite length_app, length_skipn.
  pose proof (length_firstn 6 (giveback_data K)) as Hrx.
  rewrite Hrx. lia.
Qed.

(** X12: when the transfer of [dfu_get_state] completes with status 0 but
    the device sent no byte, what [dfu_get_state] returns is the state byte
    the container held before the call. *)
Theorem dfu_get_state_without_data (c : dfu_control) :
  alloc_urb_ok K = true ->
  submit_ret K = 0 ->
  completes K <> never_completes ->
  giveback_status K = 0 ->
  giveback_data K = [] ->
  returned (dfu_get_state P K dfudev c) = Some (dfuState c).
Proof.
  intros Halloc Hsub Hfires Hst Hdata.
  rewrite dfu_get_state_unfold.
  set (c1 := get_state_request dfudev c).
  assert (Hhand : urb_at_hand K c1) by (intros _; exact Halloc).
  pose proof (dfu_submit_urb_returns_status P K dfudev c1 Hhand Hsub Hfires)
    as Hret.
  assert (Hbyte : dfuState (final_ctrl (dfu_submit_urb P K dfudev c1))
                  = dfuState c).
  { rewrite dfu_submit_urb_outcome. unfold submit_outcome.
    change (urb c1) with (@None urb_t).
    rewrite Halloc, Hsub, Hdata.
    destruct (completes K); try contradiction; reflexivity. }
  destruct (dfu_submit_urb P K dfudev c1) as [retv c2 evs | c2 evs];
    cbn in Hret, Hbyte |- *; [| discriminate].
  injection Hret as ->. rewrite Hst. cbn. now rewrite Hbyte.
Qed.

(** X13: the three operations that send no data in, [dfu_do_switch],
    [dfu_abort] and [dfu_clr_status], leave the status block and the state
    byte of the container as they were, whatever the device sends. *)
Theorem out_requests_keep_buffers (c : dfu_control) :
  (dfuStatus (final_ctrl (dfu_do_switch P K dfudev c)) = dfuStatus c
   /\ dfuState (final_ctrl (dfu_do_switch P K dfudev c)) = dfuState c)
  /\ (dfuStatus (final_ctrl (dfu_abort P K dfudev c)) = dfuStatus c
      /\ dfuState (final_ctrl (dfu_abort P K dfudev c)) = dfuState c)
  /\ (dfuStatus (final_ctrl (dfu_clr_status P K dfudev c)) = dfuStatus c
      /\ dfuState (final_ctrl (dfu_clr_status P K dfudev c)) = dfuState c).
Proof.
  split; [| split].
  - rewrite dfu_do_switch_unfold.
    destruct (dfu_submit_urb_buffers (switch_request P dfudev c))
      as [Hkeep _].
    specialize (Hkeep eq_refl).
    destruct (dfu_submit_urb P K dfudev (switch_request P dfudev c));
      exact Hkeep.
  - rewrite dfu_abort_unfold.
    destruct (dfu_submit_urb_buffers (abort_request dfudev c)) as [Hkeep _].
    exact (Hkeep eq_refl).
  - rewrite dfu_clr_status_unfold.
    destruct (dfu_submit_urb_buffers (clr_status_request dfudev c))
      as [Hkeep _].
    exact (Hkeep eq_refl).
Qed.

(** The one setup packet an operation submits is the request of the
    container it hands to the engine. *)
Lemma submitted_one (c1 : dfu_control) :
  alloc_urb_ok K = true ->
  submitted (events (dfu_submit_urb P K dfudev c1)) = [Some (req c1)].
Proof.
  intros Halloc.
  pose proof (dfu_submit_urb_submitted P K dfudev c1) as Hall.
  pose proof (dfu_submit_urb_submits_once P K dfudev c1
                (fun _ => Halloc)) as Hone.
  destruct (submitted (events (dfu_submit_urb P K dfudev c1)))
    as [| sp [| sp' rest]]; try discriminate.
  inversion Hall as [| ? ? Hsp _]. now rewrite Hsp.
Qed.

(** X14: with a urb to be had, each of [dfu_do_switch], [dfu_get_status],
    [dfu_get_state] and [dfu_clr_status] submits exactly one setup packet,
    and its eight bytes are fixed by the operation and the device alone:
    request type, request code, the value (the timeout for the switch, 0
    otherwise), the interface number and the length, low bytes first.
    Nothing of what the container held before shows in them. *)
Theorem operations_submit_device_requests (c : dfu_control) :
  alloc_urb_ok K = true ->
  let sent (r : result Z) := map (option_map setup_bytes) (submitted (events r)) in
  let ifn := cpu_to_le16 (intfnum dfudev) in
  let tmo := cpu_to_le16 (Z.min (dettmout dfudev) (detach_timeout P)) in
  sent (dfu_do_switch P K dfudev c)
  = [Some [0x21; u8 USB_DFU_DETACH; lo_byte tmo; hi_byte tmo;
           lo_byte ifn; hi_byte ifn; 0; 0]]
  /\ sent (dfu_get_status P K dfudev c)
     = [Some [0xa1; u8 USB_DFU_GETSTATUS; 0; 0;
              lo_byte ifn; hi_byte ifn; 6; 0]]
  /\ sent (dfu_get_state P K dfudev c)
     = [Some [0xa1; u8 USB_DFU_GETSTATE; 0; 0;
              lo_byte ifn; hi_byte ifn; 1; 0]]
  /\ sent (dfu_clr_status P K dfudev c)
     = [Some [0x21; u8 USB_DFU_CLRSTATUS; 0; 0;
              lo_byte ifn; hi_byte ifn; 0; 0]].
Proof.
  intros Halloc. cbv zeta. split; [| split; [| split]].
  - rewrite dfu_do_switch_unfold.
    pose proof (submitted_one (switch_request P dfudev c) Halloc) as Hone.
    destruct (dfu_submit_urb P K dfudev (switch_request P dfudev c))
      as [retusb c2 evs | c2 evs]; cbn [events] in Hone |- *.
    + rewrite submitted_app, Hone.
      destruct ((retusb =? 0) && (Z.land (attr dfudev) 8 =? 0)); cbn;
        rewrite min_as_in_source; reflexivity.
    + rewrite Hone. cbn. rewrite min_as_in_source. reflexivity.
  - rewrite dfu_get_status_unfold, submitted_one by assumption. reflexivity.
  - rewrite dfu_get_state_unfold.
    pose proof (submitted_one (get_state_request dfudev c) Halloc) as Hone.
    destruct (dfu_submit_urb P K dfudev (get_state_request dfudev c));
      cbn [events] in Hone |- *; rewrite Hone; reflexivity.
  - rewrite dfu_clr_status_unfold, submitted_one by assumption. reflexivity.
Qed.

(** X15: [dfu_do_switch] returns what [dfu_submit_urb] returned, and tells
    that a reset is needed exactly when that is 0 and bit 3 of the device's
    attributes is clear. *)
Theorem dfu_do_switch_reset_note (c : dfu_control) :
  let r := dfu_do_switch P K dfudev c in
  returned r = returned (dfu_submit_urb P K dfudev (switch_request P dfudev c))
  /\ (In (Ev_dev_info Need_reset_to_switch_to_DFU) (events r)
      <-> returned r = Some 0 /\ Z.land (attr dfudev) 0x08 = 0).
Proof.
  cbv zeta. rewrite dfu_do_switch_unfold.
  assert (Hquiet : forall e,
    In e (events (dfu_submit_urb P K dfudev (switch_request P dfudev c))) ->
    is_dev_info e = false).
  { rewrite dfu_submit_urb_outcome. unfold submit_outcome.
    intros e.
    destruct (urb (switch_request P dfudev c));
      destruct (alloc_urb_ok K); destruct (submit_ret K =? 0);
      destruct (completes K);
      destruct (bRequest (req (switch_request P dfudev c)) =? USB_DFU_ABORT);
      destruct (giveback_status K =? 0);
      destruct (USB_DFU_ERROR_CODE =? 0);
      cbn; intros Hin;
      repeat (destruct Hin as [<- | Hin]; [reflexivity |]);
      contradiction. }
  destruct (dfu_submit_urb P K dfudev (switch_request P dfudev c))
    as [retusb c2 evs | c2 evs]; cbn in Hquiet |- *.
  - split; [reflexivity |].
    destruct (Z.eqb_spec retusb 0) as [-> | Hne];
      destruct (Z.eqb_spec (Z.land (attr dfudev) 8) 0) as [Hbit | Hbit];
      cbn; rewrite ?app_nil_r; split.
    + intros _. split; [reflexivity | assumption].
    + intros _. apply in_or_app. right. left. reflexivity.
    + intros Hin. apply Hquiet in Hin. discriminate.
    + intros [_ Hb]. contradiction.
    + intros Hin. apply Hquiet in Hin. discriminate.
    + intros [Hz _]. congruence.
    + intros Hin. apply Hquiet in Hin. discriminate.
    + intros [Hz _]. congruence.
  - split; [reflexivity |]. split.
    + intros Hin. apply Hquiet in Hin. discriminate.
    + intros [Hz _]. discriminate.
Qed.

End EngineMore.

(** * Probe and disconnect, the sysfs write, module init and exit *)

Lemma dfu_cleanup_explicit (i : usb_interface) (p : positive) (d : dfu_device)
    (s : driver) :
  is_int (dfu_index s) ->
  kheap s !! p = None ->
  intfdata s !! intf_ptr i = None ->
  dfu_cleanup i p
    {| dfu_index := dfu_index s + 1; dfu_devnum := dfu_devnum s;
       kheap := <[p := d]> (kheap s);
       intfdata := <[intf_ptr i := p]> (intfdata s);
       klog := klog s |} = s.
Proof.
  intros Hint Hfresh Hnone.
  unfold dfu_cleanup, atomic_dec, kfree, usb_set_intfdata, set_dfu_index.
  cbn.
  replace (dfu_index s + 1 - 1) with (dfu_index s) by lia.
  rewrite (wrap_int_id _ Hint).
  rewrite (delete_insert_id _ _ _ Hfresh), (delete_insert_id _ _ _ Hnone).
  destruct s; reflexivity.
Qed.

Section DriverMore.

Context {H : usbdfu_h}.
Variable P : module_params.

Lemma dfu_prepare_zero_has_record ok dp i s retv dp' s' :
  dfu_prepare P ok dp i s = (retv, dp', s') ->
  retv = 0 -> exists p, dp' = Some p.
Proof.
  unfold dfu_prepare. intros Hrun ->.
  destruct (extra i); [| discriminate].
  destruct (negb _ || negb _); [discriminate |].
  cbn [atomic_inc_return] in Hrun.
  destruct (_ >=? _); [discriminate |].
  destruct ok; cbn in Hrun; [| discriminate].
  injection Hrun as <- _. eauto.
Qed.

Lemma dfu_prepare_attach dp i s :
  valid_fdsc i -> counter_ok s -> slot_available P s ->
  exists p s', dfu_prepare P true dp i s = (0, Some p, s').
Proof.
  intros (fd & Hextra & Hlen & Htyp) Hok Hfree.
  rewrite (dfu_prepare_valid P true dp i s fd Hextra Hlen Htyp).
  cbn [atomic_inc_return].
  unfold counter_ok in Hok. unfold slot_available, slot_count in Hfree.
  rewrite (wrap_int_id (dfu_index s + 1))
    by (unfold is_int, INT_MIN, INT_MAX in *; lia).
  destruct (dfu_index s + 1 >=? max_dfus P) eqn:Hfull; [lia |].
  cbn. eauto.
Qed.

(** X16: when [device_create_file] fails, [dfu_probe] returns its error and
    reports it, yet the record [dfu_prepare] made stays live and registered
    as the interface's driver data and the slot stays taken; no sysfs file
    is there. *)
Theorem dfu_probe_sysfs_failure_keeps_slot (retv : Z) (i : usb_interface)
    (b : usb_bus) :
  valid_fdsc i -> counter_ok (drv b) -> slot_available P (drv b) ->
  retv <> 0 ->
  let r := dfu_probe P true retv i b in
  fst r = retv
  /\ slot_count (drv (snd r)) = slot_count (drv b) + 1
  /\ (exists p d, usb_get_intfdata i (drv (snd r)) = Some p
                  /\ live (drv (snd r)) p d
                  /\ kheap (drv b) !! p = None)
  /\ sysfs (snd r) = sysfs b
  /\ probe_log (snd r) = probe_log b ++ [Cannot_create_sysfs_file retv].
Proof.
  intros Hvalid Hok Hfree Hret. cbv zeta.
  destruct (dfu_prepare_attach None i (drv b) Hvalid Hok Hfree)
    as (p & s' & Hrun).
  destruct (dfu_prepare_success P true None i (drv b) p s' Hok Hrun)
    as (fd & d & _ & _ & Hfresh & _ & _ & ->).
  unfold dfu_probe. rewrite Hrun.
  apply Z.eqb_neq in Hret. cbn. rewrite Hret. cbn.
  split; [reflexivity |].
  split; [unfold slot_count; cbn; lia |].
  split; [| split; reflexivity].
  exists p, d. unfold usb_get_intfdata, live. cbn.
  rewrite !lookup_insert_eq. repeat split. exact Hfresh.
Qed.

(** X17: for an interface without a sysfs file, [dfu_probe] returns 0
    exactly when the interface has its file afterwards, and the file is then
    the attribute "detach" with mode 0644, read by [dfu_show] and written by
    [dfu_switch]; the files of other interfaces are as they were, and so is
    everything in sysfs when [dfu_probe] fails. *)
Theorem dfu_probe_file_iff_success (ok : bool) (retv : Z)
    (i : usb_interface) (b : usb_bus) :
  sysfs b !! intf_ptr i = None ->
  let r := dfu_probe P ok retv i b in
  (fst r = 0 <->
   sysfs (snd r) !! intf_ptr i
   = Some {| attr_name := detach_name; attr_mode := 420;
             attr_show := handler_dfu_show;
             attr_store := handler_dfu_switch |})
  /\ (fst r <> 0 -> sysfs (snd r) = sysfs b)
  /\ (forall j, j <> intf_ptr i -> sysfs (snd r) !! j = sysfs b !! j).
Proof.
  intros Hnone. cbv zeta. unfold dfu_probe.
  destruct (dfu_prepare P ok None i (drv b)) as [[retv0 dp'] s1] eqn:Hrun.
  destruct (Z.eqb_spec retv0 0) as [Hzero | Hfail]; cbn.
  - destruct (dfu_prepare_zero_has_record _ _ _ _ _ _ _ Hrun Hzero)
      as [p ->].
    destruct (Z.eqb_spec retv 0) as [-> | Hne]; cbn.
    + split; [| split].
      * split; [intros _; apply lookup_insert_eq | reflexivity].
      * intros Hcontra. contradiction.
      * intros j Hj. now rewrite lookup_insert_ne.
    + split; [| split].
      * split; [contradiction | rewrite Hnone; discriminate].
      * reflexivity.
      * reflexivity.
  - split; [| split].
    + split; [contradiction | rewrite Hnone; discriminate].
    + reflexivity.
    + reflexivity.
Qed.

(** X18: a [dfu_disconnect] after a successful [dfu_probe] of an interface
    that had neither driver data nor a sysfs file puts everything back:
    counter, records, driver data, sysfs files and logs. *)
Theorem dfu_probe_disconnect_roundtrip (ok : bool) (retv : Z)
    (i : usb_interface) (b b1 : usb_bus) :
  counter_ok (drv b) ->
  usb_get_intfdata i (drv b) = None ->
  sysfs b !! intf_ptr i = None ->
  (forall p, kheap (drv b) !! p = None -> protos b !! p = None) ->
  dfu_probe P ok retv i b = (0, b1) ->
  dfu_disconnect P i b1 = Some b.
Proof.
  intros Hok Hdata Hfile Hprotos Hprobe.
  unfold dfu_probe in Hprobe.
  destruct (dfu_prepare P ok None i (drv b)) as [[retv0 dp'] s1] eqn:Hrun.
  destruct (Z.eqb_spec retv0 0) as [Hzero | Hfail]; cbn in Hprobe;
    [| injection Hprobe as Hz _; contradiction].
  destruct (dfu_prepare_zero_has_record _ _ _ _ _ _ _ Hrun Hzero) as [p ->].
  subst retv0.
  destruct (dfu_prepare_success P ok None i (drv b) p s1 Hok Hrun)
    as (fd & d & _ & _ & Hfresh & _ & _ & ->).
  injection Hprobe as -> <-. cbn.
  unfold dfu_disconnect, usb_get_intfdata. cbn.
  rewrite lookup_insert_eq.
  rewrite (dfu_cleanup_explicit i p d (drv b)
             (counter_ok_is_int _ Hok) Hfresh Hdata).
  rewrite (delete_insert_id _ _ _ Hfile).
  rewrite (delete_insert_id _ _ _ (Hprotos p Hfresh)).
  destruct b; reflexivity.
Qed.

Variable K : usb_core.
Variable dfudev : dfu_device.

Lemma transfers_map (evs : list event) (tl : list switch_event) :
  transfers (map Sw_transfer evs ++ tl) = evs ++ transfers tl.
Proof. induction evs as [| e evs IH]; cbn; [| rewrite IH]; reflexivity. Qed.


(** [dfu_do_switch] always does something, and returns unless the urb is
    lost for good. *)
Lemma dfu_do_switch_acts (c : dfu_control) :
  events (dfu_do_switch P K dfudev c) <> []
  /\ (completes K <> never_completes ->
      returned (dfu_do_switch P K dfudev c) <> None).
Proof.
  rewrite dfu_do_switch_unfold.
  assert (Hsub :
    events (dfu_submit_urb P K dfudev (switch_request P dfudev c)) <> []
    /\ (completes K <> never_completes ->
        returned (dfu_submit_urb P K dfudev (switch_request P dfudev c))
        <> None)).
  { rewrite dfu_submit_urb_outcome. unfold submit_outcome.
    change (urb (switch_request P dfudev c)) with (@None urb_t).
    destruct (alloc_urb_ok K); destruct (submit_ret K =? 0);
      destruct (completes K); cbn; split; try discriminate;
      intros Hc; try discriminate; contradiction. }
  destruct (dfu_submit_urb P K dfudev (switch_request P dfudev c))
    as [retusb c2 evs | c2 evs]; cbn in Hsub |- *; [| exact Hsub].
  destruct Hsub as [Hne _]. split; [| discriminate].
  destruct evs; [contradiction | discriminate].
Qed.

(** What [dfu_do_switch] returns and does is the same whatever the container
    held before. *)
Lemma dfu_do_switch_any_container (c c' : dfu_control) :
  returned (dfu_do_switch P K dfudev c)
  = returned (dfu_do_switch P K dfudev c')
  /\ events (dfu_do_switch P K dfudev c)
     = events (dfu_do_switch P K dfudev c').
Proof.
  rewrite !dfu_do_switch_unfold.
  assert (Hsame :
    returned (dfu_submit_urb P K dfudev (switch_request P dfudev c))
    = returned (dfu_submit_urb P K dfudev (switch_request P dfudev c'))
    /\ events (dfu_submit_urb P K dfudev (switch_request P dfudev c))
       = events (dfu_submit_urb P K dfudev (switch_request P dfudev c'))).
  { rewrite !dfu_submit_urb_outcome.
    apply submit_outcome_same_request; reflexivity. }
  destruct (dfu_submit_urb P K dfudev (switch_request P dfudev c))
    as [r1 c1 e1 | c1 e1];
    destruct (dfu_submit_urb P K dfudev (switch_request P dfudev c'))
      as [r2 c2 e2 | c2 e2];
    cbn in Hsame |- *; destruct Hsame as [Hret Hev];
    try discriminate; subst; [| split; reflexivity].
  injection Hret as ->. split; reflexivity.
Qed.


(** X20: a write switches the device exactly when it has at least one byte,
    the first is '-' and the next is a newline or NUL; what follows these
    two bytes, and how many bytes there are, has no say.  Every other write
    is answered with the complaint about its first character, and nothing
    is transferred. *)
Theorem dfu_switch_command (ctrl : dfu_control) (buf : list Z) (count : Z) :
  let r := dfu_switch P K dfudev (Some ctrl) buf count in
  let accepted (buf : list Z) (count : Z) :=
    0 < count /\ char_at buf 0 = 45
    /\ (char_at buf 1 = 10 \/ char_at buf 1 = 0) in
  (accepted buf count ->
   transfers (snd r) = events (dfu_do_switch P K dfudev ctrl)
   /\ forall ch, ~ In (Sw_invalid_command ch) (snd r))
  /\ (~ accepted buf count ->
      transfers (snd r) = []
      /\ In (Sw_invalid_command (char_at buf 0)) (snd r))
  /\ (transfers (snd r) <> [] <-> accepted buf count)
  /\ (forall buf' count',
        accepted buf count -> accepted buf' count' ->
        snd (dfu_switch P K dfudev (Some ctrl) buf' count') = snd r).
Proof.
  cbv zeta.
  assert (Hdec : forall b n,
    (n >? 0) && (char_at b 0 =? 45)
    && ((char_at b 1 =? 10) || (char_at b 1 =? 0)) = true
    <-> 0 < n /\ char_at b 0 = 45 /\ (char_at b 1 = 10 \/ char_at b 1 = 0)).
  { intros b n.
    rewrite !andb_true_iff, orb_true_iff, !Z.eqb_eq, Z.gtb_lt. tauto. }
  assert (Hyes : forall b n,
    0 < n /\ char_at b 0 = 45 /\ (char_at b 1 = 10 \/ char_at b 1 = 0) ->
    snd (dfu_switch P K dfudev (Some ctrl) b n)
    = snd (match dfu_do_switch P K dfudev ctrl with
           | Done _ _ evs =>
               (Some n, Sw_kmalloc true :: map Sw_transfer evs ++ [Sw_kfree])
           | Blocked _ evs => (None, Sw_kmalloc true :: map Sw_transfer evs)
           end)).
  { intros b n Hacc. apply Hdec in Hacc. unfold dfu_switch.
    now rewrite Hacc. }
  assert (Htr : forall b n,
    0 < n /\ char_at b 0 = 45 /\ (char_at b 1 = 10 \/ char_at b 1 = 0) ->
    transfers (snd (dfu_switch P K dfudev (Some ctrl) b n))
    = events (dfu_do_switch P K dfudev ctrl)
    /\ forall ch,
         ~ In (Sw_invalid_command ch)
              (snd (dfu_switch P K dfudev (Some ctrl) b n))).
  { intros b n Hacc. rewrite (Hyes b n Hacc).
    destruct (dfu_do_switch P K dfudev ctrl) as [retv c2 evs | c2 evs];
      cbn [snd events transfers].
    - rewrite transfers_map. cbn. rewrite app_nil_r.
      split; [reflexivity |].
      intros ch [Hin | Hin]; [discriminate |].
      apply in_app_or in Hin as [Hin | [Hin | []]]; [| discriminate].
      apply in_map_iff in Hin as (e & He & _). discriminate.
    - rewrite <- (app_nil_r (map _ _)), transfers_map. cbn.
      rewrite !app_nil_r. split; [reflexivity |].
      intros ch [Hin | Hin]; [discriminate |].
      apply in_map_iff in Hin as (e & He & _). discriminate. }
  assert (Hno : forall b n,
    ~ (0 < n /\ char_at b 0 = 45 /\ (char_at b 1 = 10 \/ char_at b 1 = 0)) ->
    snd (dfu_switch P K dfudev (Some ctrl) b n)
    = [Sw_kmalloc true; Sw_invalid_command (char_at b 0); Sw_kfree]).
  { intros b n Hacc. unfold dfu_switch.
    destruct ((n >? 0) && (char_at b 0 =? 45)
              && ((char_at b 1 =? 10) || (char_at b 1 =? 0))) eqn:Htest;
      [| reflexivity].
    apply Hdec in Htest. contradiction. }
  split; [exact (Htr buf count) |].
  split.
  { intros Hacc. rewrite (Hno buf count Hacc). cbn. auto. }
  split.
  - split.
    + intros Hne.
      destruct ((count >? 0) && (char_at buf 0 =? 45)
                && ((char_at buf 1 =? 10) || (char_at buf 1 =? 0)))
        eqn:Htest; [now apply Hdec |].
      exfalso. apply Hne. rewrite Hno; [reflexivity |].
      intros Hacc. apply Hdec in Hacc. congruence.
    + intros Hacc. destruct (Htr buf count Hacc) as [-> _].
      apply dfu_do_switch_acts.
  - intros buf' count' Hacc Hacc'.
    rewrite (Hyes buf count Hacc), (Hyes buf' count' Hacc').
    destruct (dfu_do_switch P K dfudev ctrl); reflexivity.
Qed.

(** X21: the container of a write comes from [kmalloc] with whatever the
    memory held; [dfu_do_switch] assigns every field of it that is read, so
    what the write returns and does is the same for any two such
    containers. *)
Theorem dfu_switch_uninitialised_container (ctrl ctrl' : dfu_control)
    (buf : list Z) (count : Z) :
  dfu_switch P K dfudev (Some ctrl) buf count
  = dfu_switch P K dfudev (Some ctrl') buf count.
Proof.
  unfold dfu_switch.
  destruct ((count >? 0) && (char_at buf 0 =? 45)
            && ((char_at buf 1 =? 10) || (char_at buf 1 =? 0)));
    [| reflexivity].
  destruct (dfu_do_switch_any_container ctrl ctrl') as [Hret Hev].
  destruct (dfu_do_switch P K dfudev ctrl) as [r1 c1 e1 | c1 e1];
    destruct (dfu_do_switch P K dfudev ctrl') as [r2 c2 e2 | c2 e2];
    cbn in Hret, Hev; try discriminate; now subst.
Qed.

(** X22: from a module that holds nothing, [usbdfu_init] either returns 0
    holding the region of [max_dfus] device numbers, the class and the USB
    registration, with the two globals set and nothing logged, or returns
    the error of the step that failed, one message logged, and holds
    nothing again.  It returns 0 exactly when all three steps succeed. *)
Theorem usbdfu_init_all_or_nothing (A : init_answers) (m : module_state) :
  holds_nothing m ->
  let r := usbdfu_init P A m in
  (fst r = 0 <->
   alloc_chrdev_region_ret A = 0
   /\ IS_ERR (class_create_ret A) = false
   /\ usb_register_ret A = 0)
  /\ (fst r = 0 ->
      chrdev_regions (snd r) = [(chrdev_first A, max_dfus P)]
      /\ classes (snd r) = [class_create_ret A]
      /\ usb_registered (snd r) = true
      /\ g_dfu_devnum (snd r) = chrdev_first A
      /\ g_dfu_class (snd r) = class_create_ret A
      /\ printk (snd r) = printk m)
  /\ (fst r <> 0 ->
      holds_nothing (snd r)
      /\ exists msg, printk (snd r) = printk m ++ [msg]).
Proof.
  intros (Hreg & Hcls & Husb). cbv zeta. unfold usbdfu_init.
  destruct (Z.eqb_spec (alloc_chrdev_region_ret A) 0) as [Hchr | Hchr];
    cbn [negb].
  - cbn [g_dfu_class g_dfu_devnum].
    destruct (IS_ERR (class_create_ret A)) eqn:Herr.
    + assert (Hnz : wrap_int (PTR_ERR (class_create_ret A)) <> 0).
      { unfold IS_ERR, MAX_ERRNO in Herr. unfold PTR_ERR.
        apply andb_true_iff in Herr as [Hlo Hhi].
        rewrite wrap_int_id by (unfold is_int, INT_MIN, INT_MAX; lia).
        lia. }
      cbn [fst snd]. split; [| split].
      * split; [contradiction | intros (_ & Hcontra & _); discriminate].
      * contradiction.
      * intros _. split.
        -- unfold holds_nothing, unregister_chrdev_region, remove_region,
             pr_err. cbn. rewrite !Z.eqb_refl, Hreg, Hcls, Husb. cbn.
           repeat split.
        -- eexists. reflexivity.
    + destruct (Z.eqb_spec (usb_register_ret A) 0) as [Hregd | Hregd];
        cbn [negb fst snd].
      * rewrite Hregd, Hreg, Hcls. cbn.
        split; [tauto |]. split; [| contradiction].
        intros _. repeat split.
      * split; [| split].
        -- split; [contradiction | intros (_ & _ & Hcontra); contradiction].
        -- contradiction.
        -- intros _. split.
           ++ unfold holds_nothing, unregister_chrdev_region, remove_region,
                class_destroy, remove_class, pr_err. cbn.
              rewrite !Z.eqb_refl, Hreg, Hcls, Husb. cbn. repeat split.
           ++ eexists. reflexivity.
  - cbn [fst snd]. split; [| split].
    + split; [contradiction | intros (Hcontra & _); contradiction].
    + contradiction.
    + intros _. split; [| eexists; reflexivity].
      unfold holds_nothing, pr_err. cbn. auto.
Qed.

(** X23: [usbdfu_exit] after a [usbdfu_init] that returned 0 gives back
    all that the module held: region, class and registration. *)
Theorem usbdfu_exit_releases (A : init_answers) (m m1 : module_state) :
  holds_nothing m ->
  usbdfu_init P A m = (0, m1) ->
  holds_nothing (usbdfu_exit P m1).
Proof.
  intros (Hreg & Hcls & Husb) Hinit. unfold usbdfu_init in Hinit.
  destruct (Z.eqb_spec (alloc_chrdev_region_ret A) 0) as [Hchr | Hchr];
    cbn [negb] in Hinit; [| injection Hinit as Hz _; contradiction].
  cbn [g_dfu_class g_dfu_devnum] in Hinit.
  destruct (IS_ERR (class_create_ret A)) eqn:Herr.
  - exfalso. injection Hinit as Hz _.
    unfold IS_ERR, MAX_ERRNO in Herr. unfold PTR_ERR in Hz.
    apply andb_true_iff in Herr as [Hlo Hhi].
    rewrite wrap_int_id in Hz by (unfold is_int, INT_MIN, INT_MAX; lia).
    lia.
  - destruct (Z.eqb_spec (usb_register_ret A) 0) as [Hregd | Hregd];
      cbn [negb] in Hinit; [| injection Hinit as Hz _; contradiction].
    injection Hinit as _ <-.
    unfold holds_nothing, usbdfu_exit, unregister_chrdev_region,
      remove_region, class_destroy, remove_class. cbn.
    rewrite !Z.eqb_refl, Hreg, Hcls. cbn. repeat split.
Qed.

Lemma le16_wraps (x : Z) : le16_to_cpu (cpu_to_le16 x) = x mod 65536.
Proof.
  unfold le16_to_cpu, cpu_to_le16. cbn.
  change 65536 with (256 * 256).
  rewrite Z.rem_mul_r by lia. reflexivity.
Qed.

(** X24: for a device attached by [dfu_prepare] from a descriptor whose
    timeout field is two bytes, the request [dfu_do_switch] leaves in the
    container addresses the interface's number and carries as timeout the
    smaller of the descriptor's timeout and [detach_timeout], reduced
    modulo 65536: the smaller of the two itself when [detach_timeout] is
    not negative, and [detach_timeout + 65536] when it is negative, which
    is then more than it was set to and may be more than the descriptor
    allows. *)
Theorem attached_device_detach_timeout (ok : bool) (dp : option positive)
    (i : usb_interface) (s : driver) (p : positive) (s' : driver)
    (fd : dfufdsc) (d : dfu_device) (c : dfu_control) :
  counter_ok s ->
  dfu_prepare P ok dp i s = (0, Some p, s') ->
  live s' p d ->
  extra i = Some fd ->
  le16_bytes (tmout fd) ->
  let r := dfu_do_switch P K d c in
  let declared := lo_byte (tmout fd) + 256 * hi_byte (tmout fd) in
  let sent := le16_to_cpu (wValue (req (final_ctrl r))) in
  sent = Z.min declared (detach_timeout P) mod 65536
  /\ (0 <= detach_timeout P -> sent = Z.min declared (detach_timeout P))
  /\ (- 65536 <= detach_timeout P < 0 -> sent = detach_timeout P + 65536)
  /\ wIndex (req (final_ctrl r)) = cpu_to_le16 (bInterfaceNumber i).
Proof.
  intros Hok Hrun Hlive Hextra [Hlo Hhi]. cbv zeta.
  destruct (dfu_prepare_success P ok dp i s p s' Hok Hrun)
    as (fd' & d' & Hextra' & _ & _ & Hd & _ & ->).
  rewrite Hextra in Hextra'. injection Hextra' as <-.
  unfold live in Hlive. cbn in Hlive.
  rewrite lookup_insert_eq in Hlive. injection Hlive as <-.
  assert (Hreq : req (final_ctrl (dfu_do_switch P K d' c))
                 = req (switch_request P d' c)).
  { rewrite dfu_do_switch_unfold.
    pose proof (dfu_submit_urb_keeps_req P K d' (switch_request P d' c))
      as Hkeep.
    destruct (dfu_submit_urb P K d' (switch_request P d' c)); exact Hkeep. }
  rewrite Hreq.
  assert (Hw : wValue (req (switch_request P d' c))
               = cpu_to_le16 (Z.min (dettmout d') (detach_timeout P))).
  { unfold switch_request. cbn. now rewrite min_as_in_source. }
  rewrite Hw, le16_wraps. subst d'. cbn [dettmout intfnum].
  unfold le16_to_cpu. unfold is_byte in Hlo, Hhi.
  split; [reflexivity |]. split; [| split].
  - intros Hpos. apply Z.mod_small. lia.
  - intros Hneg.
    rewrite Z.min_r by lia.
    replace (detach_timeout P) with (detach_timeout P + 65536 + (-1) * 65536)
      at 1 by lia.
    rewrite Z.mod_add by lia. apply Z.mod_small. lia.
  - reflexivity.
Qed.

End DriverMore.

(** * The further properties evaluated on concrete input *)

Lemma fresh_driver_counter_ok : counter_ok fresh_driver.
Proof. unfold counter_ok, INT_MAX. cbn. lia. Qed.

Lemma intf_A_valid : valid_fdsc (H := dfu_class_header) intf_A.
Proof. exists example_fdsc. repeat split. Qed.

Lemma fresh_driver_slot_available : slot_available default_params fresh_driver.
Proof. unfold slot_available, slot_count. cbn. lia. Qed.

Lemma attached_A_run :
  dfu_prepare (H := dfu_class_header) default_params true None intf_A
    fresh_driver = (0, Some 1%positive, attached_A).
Proof. reflexivity. Qed.

Lemma dfu_prepare_attaches_witness :
  valid_fdsc (H := dfu_class_header) intf_A
  /\ counter_ok fresh_driver
  /\ slot_available default_params fresh_driver
  /\ exists p d s' fd,
       dfu_prepare (H := dfu_class_header) default_params true None intf_A
         fresh_driver = (0, Some p, s')
       /\ usb_get_intfdata intf_A s' = Some p
       /\ live s' p d
       /\ index d = 0
       /\ extra intf_A = Some fd
       /\ dettmout d = lo_byte (tmout fd) + 256 * hi_byte (tmout fd)
       /\ slot_count s' = 1.
Proof.
  split; [exact intf_A_valid |].
  split; [exact fresh_driver_counter_ok |].
  split; [exact fresh_driver_slot_available |].
  destruct (dfu_prepare_attaches (H := dfu_class_header) default_params None
              intf_A fresh_driver intf_A_valid fresh_driver_counter_ok
              fresh_driver_slot_available)
    as (p & d & s' & fd & Hrun & _ & Hdata & Hlive & Hidx & _ & Hextra & _
        & Htm & _ & _ & _ & Hcount).
  exists p, d, s', fd. repeat split; assumption.
Defined.

Lemma dfu_prepare_cleanup_roundtrip_witness :
  counter_ok fresh_driver
  /\ usb_get_intfdata intf_A fresh_driver = None
  /\ dfu_prepare (H := dfu_class_header) default_params true None intf_A
       fresh_driver = (0, Some 1%positive, attached_A)
  /\ dfu_cleanup intf_A 1 attached_A = fresh_driver.
Proof.
  split; [exact fresh_driver_counter_ok |].
  split; [reflexivity |].
  split; [exact attached_A_run |].
  exact (dfu_prepare_cleanup_roundtrip (H := dfu_class_header) default_params
           true None intf_A fresh_driver 1 attached_A
           fresh_driver_counter_ok eq_refl attached_A_run).
Defined.

Lemma newest_first_detach_lifo :
  last_in_first_out (H := dfu_class_header) default_params
    newest_first_detach (driver_init (MKDEV 240 0)).
Proof.
  cbn [last_in_first_out newest_first_detach]. repeat split.
  exists 2%positive. eexists. vm_compute. repeat split.
Qed.

Lemma indices_distinct_when_detached_newest_first_witness :
  let s := lifecycle_run (H := dfu_class_header) default_params
             newest_first_detach (driver_init (MKDEV 240 0)) in
  max_dfus default_params <= INT_MAX
  /\ last_in_first_out (H := dfu_class_header) default_params
       newest_first_detach (driver_init (MKDEV 240 0))
  /\ indices_distinct s
  /\ (forall p d, live s p d -> 0 <= index d < slot_count s).
Proof.
  intros s.
  assert (Hmax : max_dfus default_params <= INT_MAX)
    by (unfold INT_MAX; cbn; lia).
  split; [exact Hmax |]. split; [exact newest_first_detach_lifo |].
  exact (indices_distinct_when_detached_newest_first (H := dfu_class_header)
           default_params (MKDEV 240 0) newest_first_detach Hmax
           newest_first_detach_lifo).
Defined.

Lemma devnum_major_minor_witness :
  counter_ok fresh_driver
  /\ 0 <= dfu_devnum fresh_driver
  /\ max_dfus default_params <= 2 ^ MINORBITS
  /\ dfu_prepare (H := dfu_class_header) default_params true None intf_A
       fresh_driver = (0, Some 1%positive, attached_A)
  /\ exists d, live attached_A 1 d
               /\ MAJOR (devnum d) = 240 /\ MINOR (devnum d) = index d.
Proof.
  assert (Hdev : 0 <= dfu_devnum fresh_driver) by (vm_compute; discriminate).
  assert (Hmax : max_dfus default_params <= 2 ^ MINORBITS)
    by (vm_compute; discriminate).
  split; [exact fresh_driver_counter_ok |].
  split; [exact Hdev |]. split; [exact Hmax |].
  split; [exact attached_A_run |].
  eexists. split; [vm_compute; reflexivity |].
  exact (devnum_major_minor (H := dfu_class_header) default_params true None
           intf_A fresh_driver 1 attached_A _ fresh_driver_counter_ok Hdev
           Hmax attached_A_run eq_refl).
Defined.

Lemma dfu_submit_urb_no_memory_witness :
  let r := dfu_submit_urb (H := dfu_class_header) default_params
             kernel_without_memory example_dfudev stale_ctrl in
  urb stale_ctrl = None
  /\ alloc_urb_ok kernel_without_memory = false
  /\ returned r = Some (-12)
  /\ final_ctrl r = stale_ctrl
  /\ submitted (events r) = [].
Proof.
  intros r.
  destruct (dfu_submit_urb_no_memory (H := dfu_class_header) default_params
              kernel_without_memory example_dfudev stale_ctrl
              eq_refl eq_refl)
    as (Hret & Hctrl & Hsub & _).
  repeat split; assumption.
Defined.

Lemma zero_only_from_handler_witness :
  let K := kernel 0 before_timeout 0 [2] in
  let r := dfu_submit_urb (H := dfu_class_header) default_params K
             example_dfudev stale_ctrl in
  USB_DFU_ERROR_CODE (usbdfu_h := dfu_class_header) <> 0
  /\ returned r = Some 0
  /\ count_events is_completion (events r) = 1%nat
  /\ status (final_ctrl r) = 0
  /\ nxfer (final_ctrl r) = 1.
Proof.
  intros K r.
  assert (Hsentinel : USB_DFU_ERROR_CODE (usbdfu_h := dfu_class_header) <> 0)
    by discriminate.
  assert (Hfires : completes K <> never_completes) by discriminate.
  assert (Hret : returned r = Some 0).
  { apply (dfu_submit_urb_returns_status (H := dfu_class_header)
             default_params K example_dfudev stale_ctrl);
      [intros _; reflexivity | reflexivity | exact Hfires]. }
  split; [exact Hsentinel |]. split; [exact Hret |].
  destruct (zero_only_from_handler (H := dfu_class_header) default_params K
              example_dfudev stale_ctrl Hsentinel Hret)
    as (_ & _ & _ & Hone & Hst & Hn).
  repeat split; assumption.
Defined.

Lemma dfu_submit_urb_ignores_old_results_witness :
  let K := kernel 0 after_unlink (-104) [] in
  req stale_ctrl = req used_ctrl
  /\ pipe stale_ctrl = pipe used_ctrl
  /\ buff stale_ctrl = buff used_ctrl
  /\ len stale_ctrl = len used_ctrl
  /\ urb stale_ctrl = urb used_ctrl
  /\ status stale_ctrl <> status used_ctrl
  /\ returned (dfu_submit_urb (H := dfu_class_header) default_params K
                 example_dfudev stale_ctrl)
     = returned (dfu_submit_urb (H := dfu_class_header) default_params K
                   example_dfudev used_ctrl)
  /\ events (dfu_submit_urb (H := dfu_class_header) default_params K
               example_dfudev stale_ctrl)
     = events (dfu_submit_urb (H := dfu_class_header) default_params K
                 example_dfudev used_ctrl).
Proof.
  intros K.
  do 6 (split; [first [reflexivity | discriminate] |]).
  exact (dfu_submit_urb_ignores_old_results (H := dfu_class_header)
           default_params K example_dfudev stale_ctrl used_ctrl
           eq_refl eq_refl eq_refl eq_refl eq_refl).
Defined.

Lemma dfu_get_status_fills_block_witness :
  let K := kernel 0 before_timeout 0 status_response in
  let r := dfu_get_status (H := dfu_class_header) default_params K
             example_dfudev stale_ctrl in
  alloc_urb_ok K = true
  /\ submit_ret K = 0
  /\ completes K <> never_completes
  /\ returned r = Some 0
  /\ dfuStatus (final_ctrl r) = status_response
  /\ dfuState (final_ctrl r) = dfuState stale_ctrl.
Proof.
  intros K r.
  assert (Hfires : completes K <> never_completes) by discriminate.
  split; [reflexivity |]. split; [reflexivity |]. split; [exact Hfires |].
  destruct (dfu_get_status_fills_block (H := dfu_class_header) default_params
              K example_dfudev stale_ctrl eq_refl eq_refl Hfires)
    as (Hret & Hblock & _ & Hbyte).
  split; [exact Hret |]. split; [exact Hblock | exact Hbyte].
Defined.

Lemma dfu_get_state_without_data_witness :
  let K := kernel 0 before_timeout 0 [] in
  let c := set_dfuState 5 stale_ctrl in
  alloc_urb_ok K = true
  /\ submit_ret K = 0
  /\ completes K <> never_completes
  /\ giveback_status K = 0
  /\ giveback_data K = []
  /\ returned (dfu_get_state (H := dfu_class_header) default_params K
                 example_dfudev c) = Some 5.
Proof.
  intros K c.
  assert (Hfires : completes K <> never_completes) by discriminate.
  repeat (split; [first [reflexivity | exact Hfires] |]).
  exact (dfu_get_state_without_data (H := dfu_class_header) default_params K
           example_dfudev c eq_refl eq_refl Hfires eq_refl eq_refl).
Defined.

Lemma operations_submit_device_requests_witness :
  let K := kernel 0 before_timeout 0 [] in
  let sent (r : result Z) :=
    map (option_map setup_bytes) (submitted (events r)) in
  alloc_urb_ok K = true
  /\ sent (dfu_do_switch (H := dfu_class_header) default_params K
             example_dfudev stale_ctrl)
     = [Some [0x21; 0; 0xd0; 0x07; 0; 0; 0; 0]]
  /\ sent (dfu_get_status (H := dfu_class_header) default_params K
             example_dfudev stale_ctrl)
     = [Some [0xa1; 3; 0; 0; 0; 0; 6; 0]]
  /\ sent (dfu_get_state (H := dfu_class_header) default_params K
             example_dfudev stale_ctrl)
     = [Some [0xa1; 5; 0; 0; 0; 0; 1; 0]]
  /\ sent (dfu_clr_status (H := dfu_class_header) default_params K
             example_dfudev stale_ctrl)
     = [Some [0x21; 4; 0; 0; 0; 0; 0; 0]].
Proof.
  intros K sent.
  split; [reflexivity |].
  exact (operations_submit_device_requests (H := dfu_class_header)
           default_params K example_dfudev stale_ctrl eq_refl).
Defined.

Lemma dfu_probe_sysfs_failure_keeps_slot_witness :
  let r := dfu_probe (H := dfu_class_header) default_params true (-12)
             intf_A fresh_bus in
  valid_fdsc (H := dfu_class_header) intf_A
  /\ counter_ok (drv fresh_bus)
  /\ slot_available default_params (drv fresh_bus)
  /\ -12 <> 0
  /\ fst r = -12
  /\ slot_count (drv (snd r)) = slot_count (drv fresh_bus) + 1
  /\ sysfs (snd r) = sysfs fresh_bus.
Proof.
  intros r.
  assert (Hfail : -12 <> 0) by discriminate.
  split; [exact intf_A_valid |].
  split; [exact fresh_driver_counter_ok |].
  split; [exact fresh_driver_slot_available |].
  split; [exact Hfail |].
  destruct (dfu_probe_sysfs_failure_keeps_slot (H := dfu_class_header)
              default_params (-12) intf_A fresh_bus intf_A_valid
              fresh_driver_counter_ok fresh_driver_slot_available Hfail)
    as (Hret & Hcount & _ & Hsysfs & _).
  repeat split; assumption.
Defined.

Lemma dfu_probe_file_iff_success_witness :
  let r := dfu_probe (H := dfu_class_header) default_params true 0
             intf_A fresh_bus in
  sysfs fresh_bus !! intf_ptr intf_A = None
  /\ fst r = 0
  /\ sysfs (snd r) !! intf_ptr intf_A
     = Some {| attr_name := detach_name; attr_mode := 420;
               attr_show := handler_dfu_show;
               attr_store := handler_dfu_switch |}.
Proof.
  intros r.
  split; [reflexivity |]. split; [reflexivity |].
  destruct (dfu_probe_file_iff_success (H := dfu_class_header) default_params
              true 0 intf_A fresh_bus eq_refl) as (Hiff & _).
  apply Hiff. reflexivity.
Defined.

Lemma dfu_probe_disconnect_roundtrip_witness :
  counter_ok (drv fresh_bus)
  /\ usb_get_intfdata intf_A (drv fresh_bus) = None
  /\ sysfs fresh_bus !! intf_ptr intf_A = None
  /\ dfu_probe (H := dfu_class_header) default_params true 0 intf_A fresh_bus
     = (0, probed_A)
  /\ dfu_disconnect (H := dfu_class_header) default_params intf_A probed_A
     = Some fresh_bus.
Proof.
  assert (Hprotos : forall p, kheap (drv fresh_bus) !! p = None ->
                              protos fresh_bus !! p = None)
    by (intros p _; apply lookup_empty).
  split; [exact fresh_driver_counter_ok |].
  split; [reflexivity |]. split; [reflexivity |]. split; [reflexivity |].
  exact (dfu_probe_disconnect_roundtrip (H := dfu_class_header)
           default_params true 0 intf_A fresh_bus probed_A
           fresh_driver_counter_ok eq_refl eq_refl Hprotos eq_refl).
Defined.

Lemma module_unloaded_holds_nothing : holds_nothing module_unloaded.
Proof. repeat split. Qed.

Lemma usbdfu_init_all_or_nothing_witness :
  let r := usbdfu_init default_params init_succeeds module_unloaded in
  holds_nothing module_unloaded
  /\ fst r = 0
  /\ chrdev_regions (snd r) = [(MKDEV 240 0, 8)]
  /\ classes (snd r) = [4096]
  /\ usb_registered (snd r) = true.
Proof.
  intros r.
  split; [exact module_unloaded_holds_nothing |].
  split; [reflexivity |].
  destruct (usbdfu_init_all_or_nothing default_params init_succeeds
              module_unloaded module_unloaded_holds_nothing)
    as (_ & Hall & _).
  destruct (Hall eq_refl) as (Hreg & Hcls & Husb & _).
  repeat split; assumption.
Defined.

Lemma usbdfu_exit_releases_witness :
  holds_nothing module_unloaded
  /\ usbdfu_init default_params init_succeeds module_unloaded
     = (0, module_loaded)
  /\ holds_nothing (usbdfu_exit default_params module_loaded).
Proof.
  split; [exact module_unloaded_holds_nothing |].
  split; [reflexivity |].
  exact (usbdfu_exit_releases default_params init_succeeds module_unloaded
           module_loaded module_unloaded_holds_nothing eq_refl).
Defined.

Lemma attached_device_detach_timeout_witness :
  let K := kernel 0 before_timeout 0 [] in
  counter_ok fresh_driver
  /\ dfu_prepare (H := dfu_class_header) default_params true None intf_A
       fresh_driver = (0, Some 1%positive, attached_A)
  /\ extra intf_A = Some example_fdsc
  /\ le16_bytes (tmout example_fdsc)
  /\ exists d,
       live attached_A 1 d
       /\ le16_to_cpu
            (wValue (req (final_ctrl
               (dfu_do_switch (H := dfu_class_header) default_params K d
                  stale_ctrl)))) = 255.
Proof.
  intros K.
  assert (Hbytes : le16_bytes (tmout example_fdsc))
    by (vm_compute; repeat split; discriminate).
  split; [exact fresh_driver_counter_ok |].
  split; [exact attached_A_run |].
  split; [reflexivity |]. split; [exact Hbytes |].
  eexists. split; [vm_compute; reflexivity |].
  destruct (attached_device_detach_timeout (H := dfu_class_header)
              default_params K true None intf_A fresh_driver 1 attached_A
              example_fdsc _ stale_ctrl fresh_driver_counter_ok
              attached_A_run eq_refl eq_refl Hbytes)
    as (_ & Hmin & _).
  etransitivity; [apply Hmin; vm_compute; discriminate | reflexivity].
Defined.
